(** * GridData: interpolation over a rectilinear 2-D grid

    Shallow embedding of [snsim/utils.py] (class [GridData]) and the
    properties of its constructor, its text loader and its query method.

    Python floats and numpy [float64] values are IEEE binary64 numbers:
    they are modelled by Rocq's primitive floats, whose operations compute
    the same results.  Python exceptions are values of the type [exn];
    a method that can raise returns a [result]. *)

From Stdlib Require Import String List ZArith Bool Lia Floats.
Import ListNotations.

Local Open Scope string_scope.
Local Open Scope list_scope.

(** ** Python values and exceptions *)

(** An argument of [str.format]. *)
Inductive pyarg : Type :=
| AFloat (f : float)
| AStr (s : string).

(** The text of an exception: the template and the arguments given to
    [str.format].  The rendering of [{:.2f}] into decimal digits is not
    modelled: a message is its template together with its arguments. *)
Record text : Type := Format { template : string; args : list pyarg }.

Inductive exn : Type :=
| ValueError (msg : text)
| AttributeError (msg : text)
| TypeError (msg : text)
| IndexError (msg : text)
| NameError (msg : text)
| IOError (msg : text).

Inductive result (A : Type) : Type :=
| Ok (a : A)
| Raise (e : exn).

Arguments Ok {A} a.
Arguments Raise {A} e.

Definition bind {A B : Type} (c : result A) (k : A -> result B) : result B :=
  match c with
  | Ok a => k a
  | Raise e => Raise e
  end.

Notation "x <- c ;; k" := (bind c (fun x => k))
  (at level 61, c at next level, right associativity).

(** Python [a != b], [a > b] on floats. *)
Definition fne (a b : float) : bool := negb (PrimFloat.eqb a b).
Definition fgt (a b : float) : bool := PrimFloat.ltb b a.

(** ** The numpy routines the class calls *)

Module np.

(** [np.asarray(v)] of a one-dimensional sequence, or of the [None]
    object (a zero-dimensional object array). *)
Inductive ndarray : Type :=
| Arr1 (v : list float)
| Arr0None.

(** [a[k]] on a Python list or a one-dimensional array: a negative index
    counts from the end, an index out of range raises [IndexError]. *)
Definition getitem {A : Type} (a : list A) (k : Z) : result A :=
  let n := Z.of_nat (length a) in
  let k' := if (k <? 0)%Z then (k + n)%Z else k in
  if ((0 <=? k') && (k' <? n))%Z then
    match nth_error a (Z.to_nat k') with
    | Some v => Ok v
    | None => Raise (IndexError (Format "index out of range" []))
    end
  else Raise (IndexError (Format "index out of range" [])).

(** [v in a] on a one-dimensional array: [(a == v).any()]. *)
Definition contains (a : list float) (v : float) : bool :=
  existsb (fun e => PrimFloat.eqb e v) a.

(** The order numpy sorts floats by: NaN after every number. *)
Definition less (a b : float) : bool :=
  PrimFloat.ltb a b || (fne b b && PrimFloat.eqb a a).

(** The bisection of [np.searchsorted(a, v)] with [side='left']. *)
Fixpoint bisect_left (fuel : nat) (a : list float) (key : float)
         (min_idx max_idx : nat) : nat :=
  match fuel with
  | O => min_idx
  | S fuel' =>
      if (min_idx <? max_idx)%nat then
        let mid_idx := (min_idx + (max_idx - min_idx) / 2)%nat in
        if less (nth mid_idx a nan) key
        then bisect_left fuel' a key (S mid_idx) max_idx
        else bisect_left fuel' a key min_idx mid_idx
      else min_idx
  end.

Definition searchsorted (a : list float) (v : float) : Z :=
  Z.of_nat (bisect_left (S (length a)) a v 0 (length a)).

(** The index search of [np.interp] once the key is known to lie within
    [[arr[0], arr[len-1]]]: the scan
    [for (i = 1; i < len && key >= arr[i]; ++i); return i - 1].
    (numpy bisects when the array is long; on an increasing array the
    index found is the same.) *)
Fixpoint scan (key : float) (arr : list float) (i : nat) : nat :=
  match arr with
  | [] => i
  | a :: arr' => if PrimFloat.leb a key then scan key arr' (S i) else i
  end.

Definition search (key : float) (arr : list float) : nat :=
  scan key (tl arr) 1 - 1.

(** One element of [np.interp(x, xp, fp)], with [left = fp[0]] and
    [right = fp[-1]] (the defaults); [xp] and [fp] have the same
    non-zero length. *)
Definition interp1 (xp fp : list float) (x : float) : float :=
  let len := length xp in
  let lval := nth 0 fp nan in
  let rval := nth (len - 1) fp nan in
  if (len =? 1)%nat then
    if PrimFloat.ltb x (nth 0 xp nan) then lval
    else if fgt x (nth 0 xp nan) then rval
    else nth 0 fp nan
  else if fne x x then x
  else if fgt x (nth (len - 1) xp nan) then rval
  else if PrimFloat.ltb x (nth 0 xp nan) then lval
  else
    let j := search x xp in
    if (j =? len - 1)%nat then nth j fp nan
    else if PrimFloat.eqb (nth j xp nan) x then nth j fp nan
    else
      let slope := ((nth (S j) fp nan - nth j fp nan)
                    / (nth (S j) xp nan - nth j xp nan))%float in
      let r := (slope * (x - nth j xp nan) + nth j fp nan)%float in
      if fne r r then
        let r' := (slope * (x - nth (S j) xp nan) + nth (S j) fp nan)%float in
        if fne r' r' && PrimFloat.eqb (nth j fp nan) (nth (S j) fp nan)
        then nth j fp nan
        else r'
      else r.

(** [np.interp(x, xp, fp)] for a one-dimensional [x]. *)
Definition interp (x xp : ndarray) (fp : list float) : result (list float) :=
  match xp with
  | Arr0None =>
      Raise (ValueError (Format "object of too small depth for desired array" []))
  | Arr1 xp =>
      match x with
      | Arr0None =>
          Raise (ValueError (Format "object of too small depth for desired array" []))
      | Arr1 x =>
          if (length xp =? 0)%nat then
            Raise (ValueError (Format "array of sample points is empty" []))
          else if negb (length fp =? length xp)%nat then
            Raise (ValueError (Format "fp and xp are not of the same length." []))
          else Ok (map (interp1 xp fp) x)
      end
  end.

(** The rows of a list of lists have one length: the list can be made a
    two-dimensional array. *)
Definition rectangular (rows : list (list float)) : bool :=
  match rows with
  | [] => true
  | r :: rest => forallb (fun r' => (length r' =? length r)%nat) rest
  end.

(** Element-wise arithmetic of arrays of one length. *)
Fixpoint map2 (f : float -> float -> float) (a b : list float) : list float :=
  match a, b with
  | u :: a', v :: b' => f u v :: map2 f a' b'
  | _, _ => []
  end.

End np.

(** ** The class *)

(** The [y] argument of the constructor, as the lambdas see it: a Python
    list of lists (what [loadtxt] passes) or a two-dimensional array. *)
Inductive yarg : Type :=
| PyList (rows : list (list float))
| NdArray (rows : list (list float)).

(** What [np.asarray] raises on a list of lists whose rows differ in
    length (NumPy 1.24 and later). *)
Definition inhomogeneous : exn :=
  ValueError (Format "setting an array element with a sequence. The requested array has an inhomogeneous shape after 1 dimensions." []).

(** [np.asarray(y)]: an array is returned as it is; a list of lists
    becomes an array when its rows have one length, and is refused
    otherwise. *)
Definition asarray_y (v : yarg) : result (list (list float)) :=
  match v with
  | NdArray rows => Ok rows
  | PyList rows => if np.rectangular rows then Ok rows else Raise inhomogeneous
  end.

(** [y[i,:]]: a list cannot be indexed by a tuple. *)
Definition yarg_row (v : yarg) (i : nat) : result (list float) :=
  match v with
  | PyList _ =>
      Raise (TypeError (Format "list indices must be integers or slices, not tuple" []))
  | NdArray rows =>
      match nth_error rows i with
      | Some r => Ok r
      | None => Raise (IndexError (Format "index out of range" []))
      end
  end.

(** The local variables of one call of [__init__] that its lambdas refer
    to.  [y] and [i] are free variables of the lambda: Python does not
    copy their values into the closure when the lambda is built, it keeps
    a reference to the cell of each variable in the frame of [__init__],
    one cell per variable and call, and reads the cell when the lambda is
    called. *)
Record frame : Type := Frame {
  fr_y : yarg;            (* the argument y *)
  fr_i : option nat       (* the loop variable i; unbound before the loop *)
}.

(** [lambda x: np.interp(x, self._x1, y[i,:])].  Every lambda of one
    constructor call has this code and the same enclosing frame, which
    the instance keeps in [closure_frame]; a lambda holds no value of its
    own. *)
Inductive lambda : Type := Lambda.

(** An instance.  [K] is the type of the row keys: floats, or what the
    loader collected (floats, or the [None] object). *)
Record GridData (K : Type) : Type := mkGridData {
  _x0 : list K;
  _x1 : np.ndarray;
  _y : list (list float);
  _yfuncs : list lambda;
  closure_frame : frame
}.

Arguments mkGridData {K}.
Arguments _x0 {K}.
Arguments _x1 {K}.
Arguments _y {K}.
Arguments _yfuncs {K}.
Arguments closure_frame {K}.

(** One iteration of [for i in range(len(self._x0))]: the loop assigns
    [i], then appends a lambda. *)
Definition init_step (st : frame * list lambda) (i : nat) : frame * list lambda :=
  let fr := Frame (fr_y (fst st)) (Some i) in
  (fr, snd st ++ [Lambda]).

(** The constructor after its three conversions: [rows] is
    [np.asarray(y)], and the loop fills [self._yfuncs]. *)
Definition init_instance {K : Type} (x0 : list K) (x1 : np.ndarray) (y : yarg)
           (rows : list (list float)) : GridData K :=
  let st := fold_left init_step (seq 0 (length x0)) (Frame y None, []) in
  mkGridData x0 x1 rows (snd st) (fst st).

(** [GridData.__init__(self, x0, x1, y)].  [x0] and [x1] are given
    converted; the conversion of [y] can raise. *)
Definition __init__ {K : Type} (x0 : list K) (x1 : np.ndarray) (y : yarg)
  : result (GridData K) :=
  rows <- asarray_y y ;;
  Ok (init_instance x0 x1 y rows).

(** Calling one of [self._yfuncs]: the body reads [i] when it runs. *)
Definition call {K : Type} (self : GridData K) (f : lambda) (x : np.ndarray)
  : result (list float) :=
  match f with
  | Lambda =>
      i <- match fr_i (closure_frame self) with
           | Some i => Ok i
           | None => Raise (NameError (Format "free variable 'i' referenced before assignment" []))
           end ;;
      row <- yarg_row (fr_y (closure_frame self)) i ;;
      np.interp x (_x1 self) row
  end.

(** The message of the bounds check:
    ["Requested x0 {:.2f} out of range ({:.2f}, {:.2f})".format(x0, self._x0[0], self._x0[-1])]. *)
Definition out_of_range_template : string :=
  "Requested x0 {:.2f} out of range ({:.2f}, {:.2f})".

Definition out_of_range (x0 lo hi : float) : text :=
  Format out_of_range_template [AFloat x0; AFloat lo; AFloat hi].

(** What [self._x0.index(x0)] raises: [self._x0] is the result of
    [np.asarray], and an array has no method [index]. *)
Definition no_index : exn :=
  AttributeError (Format "'numpy.ndarray' object has no attribute 'index'" []).

(** [GridData.y(self, x0, x1=None, extend=True)]. *)
Definition y (self : GridData float) (x0 : float) (x1 : option np.ndarray)
           (extend : bool) : result (list float) :=
  lo <- np.getitem (_x0 self) 0 ;;
  hi <- np.getitem (_x0 self) (-1) ;;
  if (PrimFloat.ltb x0 lo || fgt x0 hi) && negb extend then
    Raise (ValueError (out_of_range x0 lo hi))
  else
    let x1 := match x1 with None => _x1 self | Some v => v end in
    if np.contains (_x0 self) x0 then
      (* idx = self._x0.index(x0) *)
      Raise no_index
    else if PrimFloat.ltb x0 lo then
      f <- np.getitem (_yfuncs self) 0 ;; call self f x1
    else if fgt x0 hi then
      f <- np.getitem (_yfuncs self) (-1) ;; call self f x1
    else
      let i := np.searchsorted (_x0 self) x0 in
      f0 <- np.getitem (_yfuncs self) (i - 1) ;;
      y0 <- call self f0 x1 ;;
      f1 <- np.getitem (_yfuncs self) i ;;
      y1 <- call self f1 x1 ;;
      a <- np.getitem (_x0 self) (i - 1) ;;
      b <- np.getitem (_x0 self) i ;;
      let dx0 := ((x0 - a) / (b - a))%float in
      let dy := np.map2 PrimFloat.sub y1 y0 in
      Ok (np.map2 PrimFloat.add y0 (map (PrimFloat.mul dx0) dy)).

(** The grid of the midpoint example, given as arrays. *)
Definition example_rows : list (list float) :=
  [[0%float; 0%float; 0%float]; [10%float; 20%float; 30%float]].

(** The instance that [__init__] returns for it. *)
Definition example_grid : GridData float :=
  init_instance [0%float; 10%float]
                (np.Arr1 [0%float; 1%float; 2%float])
                (NdArray example_rows) example_rows.

(** ** Reading a grid from a text file *)

(** The file system: the lines of each file, and the names of the files
    opened so far.  A line is given by the floats that
    [map(float, line.split())] yields for it (reading decimal text into a
    float is not modelled). *)
Record world : Type := World {
  files : string -> option (list (list float));
  opened : list string
}.

(** [open(filename)], iterated over. *)
Definition open (w : world) (filename : string)
  : result (list (list float)) * world :=
  let w' := World (files w) (opened w ++ [filename]) in
  match files w filename with
  | Some lines => (Ok lines, w')
  | None => (Raise (IOError (Format "No such file or directory" [AStr filename])), w')
  end.

(** The local variables of [loadtxt]. *)
Module Locals.
Record t : Type := mk {
  x0 : list (option float);
  x1 : option (list float);
  y : list (list float);
  x0_current : option float;
  x1_current : list float;
  y1_current : list float
}.
End Locals.

(** [x0_tmp != x0_current], with [x0_current] a float or [None]. *)
Definition differs (x0_tmp : float) (x0_current : option float) : bool :=
  match x0_current with
  | Some c => fne x0_tmp c
  | None => true
  end.

(** The body of [for line in open(filename)]. *)
Definition loadtxt_line (st : Locals.t) (line : list float) : result Locals.t :=
  match line with
  | [x0_tmp; x1_tmp; y_tmp] =>
      let x0_current :=
        match Locals.x0_current st with
        | None => Some x0_tmp
        | Some c => Some c
        end in
      let st' :=
        if differs x0_tmp x0_current then
          Locals.mk (Locals.x0 st ++ [x0_current])
                    (match Locals.x1 st with
                     | None => Some (Locals.x1_current st)
                     | Some v => Some v
                     end)
                    (Locals.y st ++ [Locals.y1_current st])
                    (Some x0_tmp) [] []
        else
          Locals.mk (Locals.x0 st) (Locals.x1 st) (Locals.y st)
                    x0_current (Locals.x1_current st) (Locals.y1_current st) in
      Ok (Locals.mk (Locals.x0 st') (Locals.x1 st') (Locals.y st')
                    (Locals.x0_current st')
                    (Locals.x1_current st' ++ [x1_tmp])
                    (Locals.y1_current st' ++ [y_tmp]))
  | _ => Raise (ValueError (Format "wrong number of values to unpack" []))
  end.

Fixpoint loadtxt_loop (st : Locals.t) (lines : list (list float))
  : result Locals.t :=
  match lines with
  | [] => Ok st
  | line :: lines' => st' <- loadtxt_line st line ;; loadtxt_loop st' lines'
  end.

Definition loadtxt_start : Locals.t := Locals.mk [] None [] None [] [].

(** [np.asarray(x1)] for the [x1] of [loadtxt]: a list, or [None]. *)
Definition asarray (x1 : option (list float)) : np.ndarray :=
  match x1 with
  | Some v => np.Arr1 v
  | None => np.Arr0None
  end.

(** What [loadtxt] passes to the constructor once the loop has ended. *)
Definition loadtxt_finish (st : Locals.t) : result (GridData (option float)) :=
  __init__ (Locals.x0 st ++ [Locals.x0_current st])
           (asarray (Locals.x1 st))
           (PyList (Locals.y st ++ [Locals.y1_current st])).

(** [GridData.loadtxt(filename, fmt)]. *)
Definition loadtxt (w : world) (filename fmt : string)
  : result (GridData (option float)) * world :=
  if negb (String.eqb fmt "singleval") then
    (Raise (ValueError (Format "Requested format {} not implemented." [AStr fmt])), w)
  else
    let (r, w') := open w filename in
    (lines <- r ;; st <- loadtxt_loop loadtxt_start lines ;; loadtxt_finish st, w').

(** The text format of a grid: one line [x0[i] x1[j] y[i][j]] per sample,
    row after row. *)
Definition serialize (x0 x1 : list float) (y : list (list float))
  : list (list float) :=
  flat_map (fun kr => map (fun cv => [fst kr; fst cv; snd cv]) (combine x1 (snd kr)))
           (combine x0 y).

(** A world holding one file. *)
Definition one_file (name : string) (lines : list (list float)) : world :=
  World (fun f => if String.eqb f name then Some lines else None) [].

(** The x0 of a line of three fields. *)
Definition key (t : float * float * float) : float := fst (fst t).

(** A line of three fields. *)
Definition line_of (t : float * float * float) : list float :=
  [fst (fst t); snd (fst t); snd t].

(** One row per contiguous run of lines, cut by the rule "a line starts a
    new row exactly when its x0 differs from the x0 of the line before
    it".  A row is the x0 of its first line and the (x1, y) pairs of its
    lines. *)
Fixpoint contiguous_runs (ls : list (float * float * float))
  : list (float * list (float * float)) :=
  match ls with
  | [] => []
  | t :: rest =>
      let k := fst (fst t) in
      let ab := (snd (fst t), snd t) in
      match hd_error rest, contiguous_runs rest with
      | Some t', (_, r) :: rs =>
          if fne (fst (fst t')) k
          then (k, [ab]) :: contiguous_runs rest
          else (k, ab :: r) :: rs
      | _, _ => [(k, [ab])]
      end
  end.

(** The x1 that the loader keeps for a file cut into [rs] rows: the x1
    values of the first row once a second row exists. *)
Definition kept_x1 (rs : list (float * list (float * float))) : np.ndarray :=
  match rs with
  | (_, r) :: _ :: _ => np.Arr1 (map fst r)
  | _ => np.Arr0None
  end.

(** Strictly increasing row keys, by the comparison the code uses. *)
Fixpoint increasing (l : list float) : bool :=
  match l with
  | a :: ((b :: _) as l') => PrimFloat.ltb a b && increasing l'
  | _ => true
  end.

(** The rows of the lines [ls] when a row of x0 [c] holding the pairs
    [cur] is open before them. *)
Definition attach (c : float) (cur : list (float * float))
           (ls : list (float * float * float))
  : list (float * list (float * float)) :=
  match hd_error ls, contiguous_runs ls with
  | Some t, (k, r) :: rs =>
      if fne (key t) c then (c, cur) :: (k, r) :: rs else (c, cur ++ r) :: rs
  | _, _ => [(c, cur)]
  end.

Definition pair_of (t : float * float * float) : float * float :=
  (snd (fst t), snd t).

(** The x1 kept once the loop has ended, from the x1 kept so far. *)
Definition x1_after (x1 : option (list float))
           (rs : list (float * list (float * float))) : option (list float) :=
  match x1 with
  | Some v => Some v
  | None =>
      match rs with
      | (_, r) :: _ :: _ => Some (map fst r)
      | _ => None
      end
  end.

(** The lines of a grid as triples: [serialize] before the fields of a line
    are put in a list. *)
Definition row_lines (k : float) (ps : list (float * float))
  : list (float * float * float) :=
  map (fun cv => (k, fst cv, snd cv)) ps.

Definition grid_triples (x0 x1 : list float) (y : list (list float))
  : list (float * float * float) :=
  flat_map (fun kr => row_lines (fst kr) (combine x1 (snd kr))) (combine x0 y).

(** ** Outcomes of a query *)

(** The outcome is the out-of-range error, whatever its arguments. *)
Definition raises_out_of_range {A : Type} (r : result A) : bool :=
  match r with
  | Raise (ValueError m) => String.eqb (template m) out_of_range_template
  | _ => false
  end.

(** The row interpolant of index [k] called on [x]. *)
Definition row_interpolant (self : GridData float) (k : Z) (x : np.ndarray)
  : result (list float) :=
  f <- np.getitem (_yfuncs self) k ;; call self f x.

(** What every row interpolant of a grid of [n] rows computes: the
    interpolation of row [n - 1]. *)
Definition last_row_interp (n : nat) (x1 : np.ndarray) (y : yarg)
           (x : np.ndarray) : result (list float) :=
  row <- yarg_row y (n - 1) ;; np.interp x x1 row.

(** The outcome is a value. *)
Definition returns {A : Type} (r : result A) : bool :=
  match r with Ok _ => true | Raise _ => false end.

(** Two lines with the same x0 and the same y; their x1 may differ. *)
Definition same_key_y (t u : float * float * float) : Prop :=
  key t = key u /\ snd t = snd u.

(** What [y[i,:]] raises when [y] is a list. *)
Definition list_index : exn :=
  TypeError (Format "list indices must be integers or slices, not tuple" []).

(** * Properties *)

(** ** Equality of floats *)

Section FloatEquality.

Lemma SFcompare_Eq (a b : spec_float) :
  SFcompare a b = Some Eq ->
  a = b \/ exists s t, a = S754_zero s /\ b = S754_zero t.
Proof.
  destruct a as [s|s| |s m e], b as [t|t| |t n f]; simpl;
    try discriminate; try (destruct s; discriminate);
    try (destruct t; discriminate).
  - right. eauto.
  - destruct s, t; try discriminate; auto.
  - destruct s, t; try discriminate.
    + destruct (Z.compare e f) eqn:He; try discriminate.
      intros H. apply Z.compare_eq in He. subst f.
      destruct (Pos.compare_cont Eq m n) eqn:Hm; try discriminate.
      apply Pcompare_Eq_eq in Hm. subst n. auto.
    + destruct (Z.compare e f) eqn:He; try discriminate.
      intros H. apply Z.compare_eq in He. subst f.
      injection H as H. apply Pcompare_Eq_eq in H. subst n. auto.
Qed.

Lemma SFcompare_zero (s t : bool) (c : spec_float) :
  SFcompare c (S754_zero s) = SFcompare c (S754_zero t).
Proof. destruct c as [u|u| |u m e]; reflexivity. Qed.

(** [a == b] lets [b] stand for [a] on the right of [==]. *)
Lemma eqb_congr_r (a b c : float) :
  PrimFloat.eqb a b = true -> PrimFloat.eqb c a = PrimFloat.eqb c b.
Proof.
  rewrite !eqb_spec. unfold SFeqb.
  destruct (SFcompare (Prim2SF a) (Prim2SF b)) as [[ | | ]|] eqn:H;
    try discriminate.
  intros _. apply SFcompare_Eq in H.
  destruct H as [H | (s & t & Ha & Hb)].
  - rewrite H. reflexivity.
  - rewrite Ha, Hb, (SFcompare_zero s t). reflexivity.
Qed.

(** [a < b] excludes [a == b]. *)
Lemma ltb_not_eqb (a b : float) :
  PrimFloat.ltb a b = true -> PrimFloat.eqb a b = false.
Proof.
  rewrite ltb_spec, eqb_spec. unfold SFltb, SFeqb.
  destruct (SFcompare (Prim2SF a) (Prim2SF b)) as [[ | | ]|];
    try discriminate; reflexivity.
Qed.

Lemma fne_congr_r (a b c : float) :
  fne a b = false -> fne c a = fne c b.
Proof.
  unfold fne. intros H. apply negb_false_iff in H.
  rewrite (eqb_congr_r a b c H). reflexivity.
Qed.

Lemma SFcompare_refl (a : spec_float) :
  a <> S754_nan -> SFcompare a a = Some Eq.
Proof.
  destruct a as [s|s| |s m e]; simpl; intros H.
  - reflexivity.
  - destruct s; reflexivity.
  - contradiction.
  - rewrite Z.compare_refl, Pcompare_refl. destruct s; reflexivity.
Qed.

Lemma SFcompare_numbers (a b : spec_float) (c : comparison) :
  SFcompare a b = Some c -> a <> S754_nan /\ b <> S754_nan.
Proof.
  destruct a, b; simpl; try discriminate; split; discriminate.
Qed.

Lemma eqb_sym (a b : float) : PrimFloat.eqb a b = PrimFloat.eqb b a.
Proof.
  rewrite !eqb_spec. unfold SFeqb.
  assert (H : forall u v, SFcompare u v = Some Eq -> SFcompare v u = Some Eq).
  { intros u v H. pose proof (SFcompare_numbers _ _ _ H) as [Hu Hv].
    apply SFcompare_Eq in H. destruct H as [-> | (s & t & -> & ->)].
    - now apply SFcompare_refl.
    - reflexivity. }
  destruct (SFcompare (Prim2SF a) (Prim2SF b)) as [[ | | ]|] eqn:E1;
    destruct (SFcompare (Prim2SF b) (Prim2SF a)) as [[ | | ]|] eqn:E2;
    try reflexivity;
    try (apply H in E1; congruence); try (apply H in E2; congruence).
Qed.

(** Both sides of a true [a < b] are numbers: each equals itself. *)
Lemma ltb_numbers (a b : float) :
  PrimFloat.ltb a b = true ->
  PrimFloat.eqb a a = true /\ PrimFloat.eqb b b = true.
Proof.
  rewrite ltb_spec, !eqb_spec. unfold SFltb, SFeqb.
  destruct (SFcompare (Prim2SF a) (Prim2SF b)) as [c|] eqn:E; [|discriminate].
  intros _. apply SFcompare_numbers in E. destruct E as [Ha Hb].
  rewrite !SFcompare_refl by assumption. auto.
Qed.

(** The next of two increasing keys differs from the one before. *)
Lemma ltb_fne (a b : float) : PrimFloat.ltb a b = true -> fne b a = true.
Proof.
  intros H. unfold fne. rewrite eqb_sym, (ltb_not_eqb a b H). reflexivity.
Qed.

End FloatEquality.

(** ** The constructor *)

Section Constructor.

(** The loop leaves [i] at its last value and appends one lambda per
    row. *)
Lemma init_loop (n start : nat) (fr : frame) (fs : list lambda) :
  fold_left init_step (seq start n) (fr, fs) =
  (match n with
   | O => fr
   | S m => Frame (fr_y fr) (Some (start + m))
   end, fs ++ repeat Lambda n).
Proof.
  revert start fr fs.
  induction n as [|n IH]; intros start fr fs; simpl.
  - now rewrite app_nil_r.
  - change (init_step (fr, fs) start)
      with (Frame (fr_y fr) (Some start), fs ++ [Lambda]).
    rewrite IH. simpl. f_equal.
    + destruct n; f_equal; f_equal; lia.
    + now rewrite <- app_assoc.
Qed.

Context {K : Type}.
Variables (x0 : list K) (x1 : np.ndarray) (y : yarg) (rows : list (list float)).

Lemma init_yfuncs :
  _yfuncs (init_instance x0 x1 y rows) = repeat Lambda (length x0).
Proof. unfold init_instance. rewrite init_loop. reflexivity. Qed.

Lemma init_frame :
  x0 <> [] ->
  closure_frame (init_instance x0 x1 y rows) = Frame y (Some (length x0 - 1)).
Proof.
  intros H. unfold init_instance. rewrite init_loop. simpl.
  destruct x0 as [|k l]; [contradiction|]. simpl.
  now rewrite Nat.sub_0_r.
Qed.

Lemma init_arrays :
  _x0 (init_instance x0 x1 y rows) = x0 /\
  _x1 (init_instance x0 x1 y rows) = x1 /\
  _y (init_instance x0 x1 y rows) = rows.
Proof. repeat split. Qed.

(** Every row interpolant of a grid reads the last row. *)
Lemma call_reads_last_row (f : lambda) (x : np.ndarray) :
  x0 <> [] ->
  call (init_instance x0 x1 y rows) f x =
  (row <- yarg_row y (length x0 - 1) ;; np.interp x x1 row).
Proof.
  intros H. unfold call. destruct f. rewrite (init_frame H). reflexivity.
Qed.

(** The constructor accepts an array as it is, and a list of lists
    exactly when its rows have one length. *)
Lemma init_array :
  __init__ x0 x1 (NdArray rows) = Ok (init_instance x0 x1 (NdArray rows) rows).
Proof. reflexivity. Qed.

Lemma init_list :
  np.rectangular rows = true ->
  __init__ x0 x1 (PyList rows) = Ok (init_instance x0 x1 (PyList rows) rows).
Proof. intros H. unfold __init__, asarray_y. now rewrite H. Qed.

Lemma init_ragged :
  np.rectangular rows = false ->
  __init__ x0 x1 (PyList rows) = Raise inhomogeneous.
Proof. intros H. unfold __init__, asarray_y. now rewrite H. Qed.

Lemma init_ok_inv (g : GridData K) :
  __init__ x0 x1 y = Ok g ->
  exists rows', asarray_y y = Ok rows' /\ g = init_instance x0 x1 y rows'.
Proof.
  unfold __init__. destruct (asarray_y y) as [rows'|e]; [|discriminate].
  cbn [bind]. intros H. injection H as <-. eauto.
Qed.

End Constructor.

(** ** Interpolation along x1 *)

Section Interp.

Variables (xp fp : list float) (x : float).

(** Left of the samples the interpolant is flat at the first sample. *)
Lemma interp1_left :
  PrimFloat.ltb x (nth 0 xp nan) = true ->
  fgt x (nth (length xp - 1) xp nan) = false ->
  np.interp1 xp fp x = nth 0 fp nan.
Proof.
  intros Hl Hr. unfold np.interp1.
  destruct (length xp =? 1)%nat.
  - now rewrite Hl.
  - destruct (ltb_numbers _ _ Hl) as [Hx _].
    unfold fne at 1. rewrite Hx. cbn [negb]. rewrite Hr, Hl. reflexivity.
Qed.

(** Right of the samples it is flat at the last sample. *)
Lemma interp1_right :
  fgt x (nth (length xp - 1) xp nan) = true ->
  np.interp1 xp fp x = nth (length xp - 1) fp nan.
Proof.
  intros Hr. unfold np.interp1.
  destruct (length xp =? 1)%nat eqn:E.
  - apply Nat.eqb_eq in E. rewrite E in *. cbn [Nat.sub] in *.
    destruct (PrimFloat.ltb x (nth 0 xp nan)); [reflexivity|].
    now rewrite Hr.
  - destruct (ltb_numbers _ _ Hr) as [_ Hx].
    unfold fne at 1. rewrite Hx. cbn [negb]. rewrite Hr. reflexivity.
Qed.

End Interp.

(** ** The bounds check of a query *)

Section BoundsCheck.

Lemma bind_no_out_of_range {A B : Type} (c : result A) (k : A -> result B) :
  raises_out_of_range c = false ->
  (forall a, raises_out_of_range (k a) = false) ->
  raises_out_of_range (bind c k) = false.
Proof. destruct c as [a|e]; simpl; auto. Qed.

Lemma getitem_no_out_of_range {A : Type} (l : list A) (k : Z) :
  raises_out_of_range (np.getitem l k) = false.
Proof.
  unfold np.getitem.
  destruct (_ && _); [destruct (nth_error _ _)|]; reflexivity.
Qed.

Lemma interp_no_out_of_range (x xp : np.ndarray) (fp : list float) :
  raises_out_of_range (np.interp x xp fp) = false.
Proof.
  unfold np.interp. destruct xp as [xp|]; [|reflexivity].
  destruct x as [x|]; [|reflexivity].
  destruct (_ =? 0)%nat; [reflexivity|].
  destruct (negb _); reflexivity.
Qed.

Lemma call_no_out_of_range {K : Type} (self : GridData K) (f : lambda)
      (x : np.ndarray) :
  raises_out_of_range (call self f x) = false.
Proof.
  unfold call. destruct f.
  apply bind_no_out_of_range.
  - destruct (fr_i _); reflexivity.
  - intros i. apply bind_no_out_of_range.
    + unfold yarg_row. destruct (fr_y _); [reflexivity|].
      destruct (nth_error _ _); reflexivity.
    + intros row. apply interp_no_out_of_range.
Qed.

End BoundsCheck.

Create HintDb oor.

#[local] Hint Resolve bind_no_out_of_range getitem_no_out_of_range
  call_no_out_of_range : oor.

(** C3.  On a grid with at least one row, a query with [extend=False]
    whose x0 is strictly outside [[x0[0], x0[-1]]] raises the [ValueError]
    whose message is the out-of-range template formatted with the
    requested x0, the first native x0 and the last native x0, in this
    order (the minimum and maximum of increasing keys); a query whose x0
    is not strictly outside never raises a [ValueError] with that
    template, whatever its arguments. *)
Theorem y_bounds_check (self : GridData float) (q lo hi : float)
        (x1 : option np.ndarray) :
  np.getitem (_x0 self) 0 = Ok lo ->
  np.getitem (_x0 self) (-1) = Ok hi ->
  if PrimFloat.ltb q lo || fgt q hi
  then y self q x1 false
       = Raise (ValueError
                  (Format "Requested x0 {:.2f} out of range ({:.2f}, {:.2f})"
                          [AFloat q; AFloat lo; AFloat hi]))
  else forall a : list pyarg,
      y self q x1 false
      <> Raise (ValueError
                  (Format "Requested x0 {:.2f} out of range ({:.2f}, {:.2f})" a)).
Proof.
  intros Hlo Hhi.
  destruct (PrimFloat.ltb q lo || fgt q hi) eqn:Hout.
  - unfold y. rewrite Hlo, Hhi. cbn [bind negb]. rewrite Hout. reflexivity.
  - assert (H : raises_out_of_range (y self q x1 false) = false).
    { unfold y. rewrite Hlo, Hhi. cbn [bind negb]. rewrite Hout. cbn [andb].
      destruct (np.contains (_x0 self) q); [reflexivity|].
      apply orb_false_iff in Hout. destruct Hout as [-> ->].
      auto 10 with oor. }
    intros a E. rewrite E in H. discriminate.
Qed.

Lemma y_bounds_check_witness :
  y example_grid 11%float None false
  = Raise (ValueError
             (Format "Requested x0 {:.2f} out of range ({:.2f}, {:.2f})"
                     [AFloat 11%float; AFloat 0%float; AFloat 10%float]))
  /\ (forall a : list pyarg,
        y example_grid 5%float None false
        <> Raise (ValueError
                    (Format "Requested x0 {:.2f} out of range ({:.2f}, {:.2f})" a)))
  /\ (forall a : list pyarg,
        y example_grid 10%float None false
        <> Raise (ValueError
                    (Format "Requested x0 {:.2f} out of range ({:.2f}, {:.2f})" a))).
Proof.
  split; [|split].
  - exact (y_bounds_check example_grid 11%float 0%float 10%float None
             eq_refl eq_refl).
  - exact (y_bounds_check example_grid 5%float 0%float 10%float None
             eq_refl eq_refl).
  - exact (y_bounds_check example_grid 10%float 0%float 10%float None
             eq_refl eq_refl).
Defined.

(** ** The loader *)

(** C7.  For a format other than ['singleval'], [loadtxt] raises the
    [ValueError] whose message is formatted from the requested format, and
    leaves the world as it was: no file has been opened. *)
Theorem loadtxt_unsupported_format (w : world) (filename fmt : string) :
  fmt <> "singleval" ->
  loadtxt w filename fmt
  = (Raise (ValueError (Format "Requested format {} not implemented." [AStr fmt])), w)
  /\ opened (snd (loadtxt w filename fmt)) = opened w.
Proof.
  intros H. unfold loadtxt.
  apply String.eqb_neq in H. rewrite H. simpl. split; reflexivity.
Qed.

Lemma loadtxt_unsupported_format_witness :
  loadtxt (one_file "grid.dat" [[1%float; 0%float; 5%float]]) "grid.dat" "bogus"
  = (Raise (ValueError (Format "Requested format {} not implemented." [AStr "bogus"])),
     one_file "grid.dat" [[1%float; 0%float; 5%float]])
  /\ opened (snd (loadtxt (one_file "grid.dat" [[1%float; 0%float; 5%float]])
                          "grid.dat" "bogus")) = [].
Proof.
  apply (loadtxt_unsupported_format
           (one_file "grid.dat" [[1%float; 0%float; 5%float]])
           "grid.dat" "bogus").
  discriminate.
Defined.

Section Loader.

Lemma loadtxt_line_same (x0 : list (option float)) (x1 : option (list float))
      (y : list (list float)) (c : float) (xs ys : list float)
      (t : float * float * float) :
  fne (key t) c = false ->
  loadtxt_line (Locals.mk x0 x1 y (Some c) xs ys) (line_of t)
  = Ok (Locals.mk x0 x1 y (Some c) (xs ++ [snd (fst t)]) (ys ++ [snd t])).
Proof.
  destruct t as [[k a] b]. unfold key. simpl. intros H. now rewrite H.
Qed.

Lemma loadtxt_line_new (x0 : list (option float)) (x1 : option (list float))
      (y : list (list float)) (c : float) (xs ys : list float)
      (t : float * float * float) :
  fne (key t) c = true ->
  loadtxt_line (Locals.mk x0 x1 y (Some c) xs ys) (line_of t)
  = Ok (Locals.mk (x0 ++ [Some c])
                  (match x1 with None => Some xs | Some v => Some v end)
                  (y ++ [ys]) (Some (key t)) [snd (fst t)] [snd t]).
Proof.
  destruct t as [[k a] b]. unfold key. simpl. intros H. now rewrite H.
Qed.

(** The first line of a file, when its x0 is a number. *)
Lemma loadtxt_line_first (t : float * float * float) :
  fne (key t) (key t) = false ->
  loadtxt_line loadtxt_start (line_of t)
  = Ok (Locals.mk [] None [] (Some (key t)) [snd (fst t)] [snd t]).
Proof.
  destruct t as [[k a] b]. unfold key. simpl. intros H. now rewrite H.
Qed.

(** Lines that carry the current x0 only extend the current row. *)
Lemma loadtxt_loop_same (ls : list (float * float * float))
      (x0 : list (option float)) (x1 : option (list float))
      (y : list (list float)) (c : float) (xs ys : list float) :
  Forall (fun t => fne (key t) c = false) ls ->
  loadtxt_loop (Locals.mk x0 x1 y (Some c) xs ys) (map line_of ls)
  = Ok (Locals.mk x0 x1 y (Some c)
                  (xs ++ map (fun t => snd (fst t)) ls)
                  (ys ++ map snd ls)).
Proof.
  revert xs ys.
  induction ls as [|t ls IH]; intros xs ys H.
  - simpl. now rewrite !app_nil_r.
  - inversion H as [|? ? Ht Hls]; subst.
    change (map line_of (t :: ls)) with (line_of t :: map line_of ls).
    cbn [loadtxt_loop]. rewrite (loadtxt_line_same _ _ _ _ _ _ _ Ht).
    cbn [bind]. rewrite (IH _ _ Hls). simpl.
    now rewrite <- !app_assoc.
Qed.

Lemma loadtxt_open (w : world) (filename : string)
      (lines : list (list float)) :
  files w filename = Some lines ->
  fst (loadtxt w filename "singleval")
  = (st <- loadtxt_loop loadtxt_start lines ;; loadtxt_finish st).
Proof.
  intros H. unfold loadtxt, open. simpl. rewrite H. reflexivity.
Qed.

End Loader.

(** C9.  When every line of the file carries the x0 of the first line,
    [loadtxt] returns a grid of one row whose stored x1 is the array of
    the [None] object: the x1 values of the file are not kept. *)
Theorem loadtxt_single_group (w : world) (filename : string)
        (t : float * float * float) (rest : list (float * float * float)) :
  files w filename = Some (map line_of (t :: rest)) ->
  Forall (fun u => fne (key u) (key t) = false) (t :: rest) ->
  exists g,
    fst (loadtxt w filename "singleval") = Ok g
    /\ _x1 g = np.Arr0None
    /\ _x0 g = [Some (key t)]
    /\ _y g = [map snd (t :: rest)].
Proof.
  intros Hf Hall. inversion Hall as [|? ? Ht Hrest]; subst.
  rewrite (loadtxt_open _ _ _ Hf).
  change (map line_of (t :: rest)) with (line_of t :: map line_of rest).
  cbn [loadtxt_loop]. rewrite (loadtxt_line_first _ Ht). cbn [bind].
  rewrite (loadtxt_loop_same _ _ _ _ _ _ _ Hrest). cbn [bind].
  eexists. split; [reflexivity|]. repeat split.
Qed.

Lemma loadtxt_single_group_witness :
  exists g,
    fst (loadtxt (one_file "grid.dat"
                    [[1%float; 0%float; 5%float]; [1%float; 1%float; 6%float]])
                 "grid.dat" "singleval") = Ok g
    /\ _x1 g = np.Arr0None
    /\ _x0 g = [Some 1%float]
    /\ _y g = [[5%float; 6%float]].
Proof.
  apply (loadtxt_single_group
           (one_file "grid.dat"
              [[1%float; 0%float; 5%float]; [1%float; 1%float; 6%float]])
           "grid.dat" (1%float, 0%float, 5%float)
           [(1%float, 1%float, 6%float)]).
  - reflexivity.
  - repeat constructor.
Defined.

Section Runs.

Lemma contiguous_runs_cons (t : float * float * float)
      (rest : list (float * float * float)) :
  contiguous_runs (t :: rest) = attach (key t) [pair_of t] rest.
Proof.
  unfold attach. cbn [contiguous_runs].
  destruct (hd_error rest) as [t'|]; [|reflexivity].
  destruct (contiguous_runs rest) as [|[k' r] rs]; [reflexivity|].
  fold (key t') (key t). destruct (fne (key t') (key t)); reflexivity.
Qed.

Lemma attach_head (c : float) (cur : list (float * float))
      (ls : list (float * float * float)) :
  exists r rs, attach c cur ls = (c, r) :: rs.
Proof.
  unfold attach. destruct (hd_error ls); [|eauto].
  destruct (contiguous_runs ls) as [|[k r] rs]; [eauto|].
  destruct (fne _ _); eauto.
Qed.

Lemma attach_new (c : float) (cur : list (float * float))
      (t : float * float * float) (rest : list (float * float * float)) :
  fne (key t) c = true ->
  attach c cur (t :: rest) = (c, cur) :: attach (key t) [pair_of t] rest.
Proof.
  intros H.
  destruct (attach_head (key t) [pair_of t] rest) as (r & rs & Hr).
  unfold attach at 1. cbn [hd_error].
  rewrite contiguous_runs_cons, Hr, H. reflexivity.
Qed.

Lemma attach_same (c : float) (cur : list (float * float))
      (t : float * float * float) (rest : list (float * float * float)) :
  fne (key t) c = false ->
  attach c cur (t :: rest) = attach c (cur ++ [pair_of t]) rest.
Proof.
  intros H. unfold attach at 1. cbn [hd_error]. rewrite H.
  rewrite contiguous_runs_cons. unfold attach.
  destruct (hd_error rest) as [t'|]; [|reflexivity].
  destruct (contiguous_runs rest) as [|[k' r] rs]; [reflexivity|].
  rewrite <- (fne_congr_r (key t) c (key t') H).
  destruct (fne (key t') (key t)).
  - reflexivity.
  - now rewrite <- app_assoc.
Qed.

(** The loop, started with a row open, ends with the rows of [attach]. *)
Lemma loadtxt_loop_runs (ls : list (float * float * float)) :
  forall (x0 : list (option float)) (x1 : option (list float))
         (y : list (list float)) (c : float) (cur : list (float * float)),
  exists st,
    loadtxt_loop (Locals.mk x0 x1 y (Some c) (map fst cur) (map snd cur))
                 (map line_of ls) = Ok st
    /\ Locals.x0 st ++ [Locals.x0_current st]
       = x0 ++ map (fun r => Some (fst r)) (attach c cur ls)
    /\ Locals.y st ++ [Locals.y1_current st]
       = y ++ map (fun r => map snd (snd r)) (attach c cur ls)
    /\ Locals.x1 st = x1_after x1 (attach c cur ls).
Proof.
  induction ls as [|t rest IH]; intros x0 x1 y c cur.
  - eexists. split; [reflexivity|]. simpl. repeat split.
    destruct x1; reflexivity.
  - change (map line_of (t :: rest)) with (line_of t :: map line_of rest).
    cbn [loadtxt_loop].
    destruct (fne (key t) c) eqn:E.
    + rewrite (loadtxt_line_new _ _ _ _ _ _ _ E). cbn [bind].
      destruct (IH (x0 ++ [Some c])
                   (match x1 with None => Some (map fst cur) | Some v => Some v end)
                   (y ++ [map snd cur]) (key t) [pair_of t])
        as (st & Hst & Hx0 & Hy & Hx1).
      exists st. split; [exact Hst|].
      rewrite (attach_new _ _ _ _ E).
      rewrite Hx0, Hy, Hx1, <- !app_assoc. repeat split.
      destruct (attach_head (key t) [pair_of t] rest) as (r & rs & Hr).
      rewrite Hr. destruct x1; reflexivity.
    + rewrite (loadtxt_line_same _ _ _ _ _ _ _ E). cbn [bind].
      destruct (IH x0 x1 y c (cur ++ [pair_of t]))
        as (st & Hst & Hx0 & Hy & Hx1).
      exists st. rewrite !map_app in Hst. split; [exact Hst|].
      rewrite (attach_same _ _ _ _ E). auto.
Qed.

(** The loop from the start of a file whose first x0 is a number. *)
Lemma loadtxt_loop_start (t : float * float * float)
      (rest : list (float * float * float)) :
  fne (key t) (key t) = false ->
  exists st,
    loadtxt_loop loadtxt_start (map line_of (t :: rest)) = Ok st
    /\ Locals.x0 st ++ [Locals.x0_current st]
       = map (fun r => Some (fst r)) (contiguous_runs (t :: rest))
    /\ Locals.y st ++ [Locals.y1_current st]
       = map (fun r => map snd (snd r)) (contiguous_runs (t :: rest))
    /\ asarray (Locals.x1 st) = kept_x1 (contiguous_runs (t :: rest)).
Proof.
  intros Ht.
  change (map line_of (t :: rest)) with (line_of t :: map line_of rest).
  cbn [loadtxt_loop]. rewrite (loadtxt_line_first _ Ht). cbn [bind].
  destruct (loadtxt_loop_runs rest [] None [] (key t) [pair_of t])
    as (st & Hst & Hx0 & Hy & Hx1).
  cbn [map pair_of fst snd] in Hst. exists st. split; [exact Hst|].
  rewrite contiguous_runs_cons, Hx0, Hy, Hx1. repeat split.
  unfold x1_after, kept_x1, asarray.
  destruct (attach (key t) [pair_of t] rest) as [|[k r] [|r' rs]]; reflexivity.
Qed.

(** The first row of [attach] holds the pairs of the open row. *)
Lemma attach_head_pairs (c : float) (cur : list (float * float))
      (ls : list (float * float * float)) :
  cur <> [] -> exists r rs, attach c cur ls = (c, r) :: rs /\ r <> [].
Proof.
  intros Hc. unfold attach. destruct (hd_error ls); [|eauto].
  destruct (contiguous_runs ls) as [|[k r] rs]; [eauto|].
  destruct (fne _ _); [eauto|].
  do 2 eexists. split; [reflexivity|].
  intros E. apply app_eq_nil in E. tauto.
Qed.

(** The loop from the start of a file whose first x0 is not a number:
    the test [x0_tmp != x0_current] holds on the first line itself, and a
    row without values is put before the rows of the file. *)
Lemma loadtxt_loop_start_nan (t : float * float * float)
      (rest : list (float * float * float)) :
  fne (key t) (key t) = true ->
  exists st,
    loadtxt_loop loadtxt_start (map line_of (t :: rest)) = Ok st
    /\ Locals.x0 st ++ [Locals.x0_current st]
       = Some (key t)
         :: map (fun r => Some (fst r)) (contiguous_runs (t :: rest))
    /\ Locals.y st ++ [Locals.y1_current st]
       = [] :: map (fun r => map snd (snd r)) (contiguous_runs (t :: rest))
    /\ asarray (Locals.x1 st) = np.Arr1 [].
Proof.
  intros Ht.
  change (map line_of (t :: rest)) with (line_of t :: map line_of rest).
  cbn [loadtxt_loop].
  assert (H1 : loadtxt_line loadtxt_start (line_of t)
               = Ok (Locals.mk [Some (key t)] (Some []) [[]] (Some (key t))
                               [snd (fst t)] [snd t])).
  { destruct t as [[k a] b]. unfold key in *. cbn [fst snd] in *.
    cbn [loadtxt_line line_of loadtxt_start Locals.x0_current differs fst snd].
    rewrite Ht. reflexivity. }
  rewrite H1. cbn [bind].
  destruct (loadtxt_loop_runs rest [Some (key t)] (Some []) [[]] (key t)
                              [pair_of t])
    as (st & Hst & Hx0 & Hy & Hx1).
  cbn [map pair_of fst snd] in Hst. exists st. split; [exact Hst|].
  rewrite contiguous_runs_cons, Hx0, Hy, Hx1. repeat split.
Qed.

(** Rows put after a row without values are never of one length with
    it. *)
Lemma ragged_after_empty (t : float * float * float)
      (rest : list (float * float * float)) :
  np.rectangular
    ([] :: map (fun r => map snd (snd r)) (contiguous_runs (t :: rest)))
  = false.
Proof.
  rewrite contiguous_runs_cons.
  destruct (attach_head_pairs (key t) [pair_of t] rest) as (r & rs & -> & Hr);
    [discriminate|].
  destruct r as [|p r]; [contradiction | reflexivity].
Qed.

End Runs.




(** ** Writing a grid and loading it *)

Section RoundTrip.

Lemma serialize_triples (x0 x1 : list float) (y : list (list float)) :
  serialize x0 x1 y = map line_of (grid_triples x0 x1 y).
Proof.
  unfold serialize, grid_triples.
  induction (combine x0 y) as [|kr l IH]; [reflexivity|].
  cbn [flat_map]. rewrite map_app, IH. f_equal.
  unfold row_lines. rewrite map_map. reflexivity.
Qed.

(** The lines of one row, before lines that start with another x0, make
    one row. *)
Lemma contiguous_runs_row (k : float) (ps : list (float * float))
      (rest : list (float * float * float)) :
  ps <> [] ->
  fne k k = false ->
  match hd_error rest with
  | Some t' => fne (key t') k = true
  | None => True
  end ->
  contiguous_runs (row_lines k ps ++ rest) = (k, ps) :: contiguous_runs rest.
Proof.
  intros Hps Hk Hrest.
  induction ps as [|p ps IH]; [contradiction|].
  destruct ps as [|p' ps].
  - destruct p as [a b]. cbn [row_lines map app contiguous_runs fst snd].
    destruct (hd_error rest) as [t'|] eqn:E.
    + fold (key t'). rewrite Hrest.
      destruct (contiguous_runs rest) as [|[k' r] rs]; reflexivity.
    + destruct rest; [reflexivity | discriminate].
  - destruct p as [a b].
    change (row_lines k ((a, b) :: p' :: ps) ++ rest)
      with ((k, a, b) :: (row_lines k (p' :: ps) ++ rest)).
    cbn [contiguous_runs]. rewrite IH by discriminate.
    cbn [row_lines map app hd_error fst snd]. rewrite Hk. reflexivity.
Qed.

Variable x1 : list float.
Hypothesis x1_columns : x1 <> [].

Lemma combine_x1_row (r : list float) :
  length r = length x1 ->
  combine x1 r <> [] /\ map fst (combine x1 r) = x1 /\ map snd (combine x1 r) = r.
Proof.
  intros H. split.
  - destruct x1 as [|c l]; [contradiction|].
    destruct r; [discriminate|]. discriminate.
  - clear x1_columns. revert r H.
    induction x1 as [|c l IH]; intros [|v r] H; try discriminate.
    + auto.
    + injection H as H. destruct (IH r H) as [E1 E2].
      cbn [combine map fst snd]. now rewrite E1, E2.
Qed.

(** The lines of a grid with increasing keys make its rows. *)
Lemma contiguous_runs_grid (x0 : list float) :
  forall y : list (list float),
    length y = length x0 ->
    Forall (fun k => fne k k = false) x0 ->
    increasing x0 = true ->
    Forall (fun r => length r = length x1) y ->
    contiguous_runs (grid_triples x0 x1 y)
    = map (fun kr => (fst kr, combine x1 (snd kr))) (combine x0 y).
Proof.
  induction x0 as [|k l IH]; intros [|r y] Hlen Hnum Hinc Hrows;
    try discriminate; [reflexivity|].
  injection Hlen as Hlen.
  inversion Hnum as [|? ? Hk Hnum']; subst.
  inversion Hrows as [|? ? Hr Hrows']; subst.
  assert (Hinc' : increasing l = true).
  { destruct l as [|k' l']; [reflexivity|].
    cbn [increasing] in Hinc. now apply andb_true_iff in Hinc. }
  change (grid_triples (k :: l) x1 (r :: y))
    with (row_lines k (combine x1 r) ++ grid_triples l x1 y).
  destruct (combine_x1_row r Hr) as (Hne & _ & _).
  rewrite contiguous_runs_row; trivial.
  - rewrite (IH y Hlen Hnum' Hinc' Hrows'). reflexivity.
  - destruct l as [|k' l']; [reflexivity|].
    destruct y as [|r' y']; [discriminate|].
    inversion Hrows' as [|? ? Hr' _]; subst.
    destruct (combine_x1_row r' Hr') as (Hne' & _ & _).
    change (grid_triples (k' :: l') x1 (r' :: y'))
      with (row_lines k' (combine x1 r') ++ grid_triples l' x1 y').
    destruct (combine x1 r') as [|p ps]; [contradiction|].
    cbn [row_lines map app hd_error]. unfold key. cbn [fst].
    cbn [increasing] in Hinc. apply andb_true_iff in Hinc.
    apply ltb_fne. tauto.
Qed.

Lemma increasing_numbers (x0 : list float) :
  increasing x0 = true -> 2 <= length x0 ->
  Forall (fun k => fne k k = false) x0.
Proof.
  assert (Hnum : forall a b, PrimFloat.ltb a b = true ->
                             fne a a = false /\ fne b b = false).
  { intros a b H. destruct (ltb_numbers a b H) as [Ha Hb].
    unfold fne. now rewrite Ha, Hb. }
  destruct x0 as [|a [|b l]]; cbn [length]; try lia.
  intros Hinc _. cbn [increasing] in Hinc. apply andb_true_iff in Hinc.
  destruct Hinc as [Hab Hinc]. constructor; [apply (Hnum a b Hab)|].
  revert a b Hab Hinc. induction l as [|c l IH]; intros a b Hab Hinc.
  - constructor; [apply (Hnum a b Hab) | constructor].
  - cbn [increasing] in Hinc. apply andb_true_iff in Hinc.
    destruct Hinc as [Hbc Hinc].
    constructor; [apply (Hnum a b Hab)|]. exact (IH b c Hbc Hinc).
Qed.

Lemma grid_keys (x0 : list float) :
  forall y : list (list float),
    length y = length x0 ->
    map (fun r : float * list (float * float) => Some (fst r))
        (map (fun kr => (fst kr, combine x1 (snd kr))) (combine x0 y))
    = map Some x0.
Proof.
  induction x0 as [|k l IH]; intros [|r y] H; try discriminate; [reflexivity|].
  injection H as H. cbn [combine map fst]. now rewrite IH.
Qed.

Lemma grid_rows (x0 : list float) :
  forall y : list (list float),
    length y = length x0 ->
    Forall (fun r => length r = length x1) y ->
    map (fun r : float * list (float * float) => map snd (snd r))
        (map (fun kr => (fst kr, combine x1 (snd kr))) (combine x0 y))
    = y.
Proof.
  induction x0 as [|k l IH]; intros [|r y] H Hr; try discriminate;
    [reflexivity|].
  injection H as H. inversion Hr as [|? ? Hv Hr']; subst.
  destruct (combine_x1_row r Hv) as (_ & _ & Hs).
  cbn [combine map fst snd]. now rewrite Hs, IH.
Qed.

Lemma rectangular_rows (y : list (list float)) :
  Forall (fun r => length r = length x1) y -> np.rectangular y = true.
Proof.
  intros H. destruct y as [|r y]; [reflexivity|].
  inversion H as [|? ? Hr Hy]; subst. cbn [np.rectangular].
  apply forallb_forall. intros r' Hin. rewrite Forall_forall in Hy.
  rewrite (Hy r' Hin), Hr. apply Nat.eqb_refl.
Qed.

(** A grid of at least two rows and at least one column, written as text
    and loaded, comes back with its x0, x1 and y. *)
Lemma roundtrip_two_rows (w : world) (filename : string)
      (x0 : list float) (y : list (list float)) :
  files w filename = Some (serialize x0 x1 y) ->
  increasing x0 = true ->
  2 <= length x0 ->
  length y = length x0 ->
  Forall (fun r => length r = length x1) y ->
  exists g,
    fst (loadtxt w filename "singleval") = Ok g
    /\ _x0 g = map Some x0
    /\ _x1 g = np.Arr1 x1
    /\ _y g = y.
Proof.
  intros Hf Hinc Hn Hlen Hrows.
  pose proof (increasing_numbers x0 Hinc Hn) as Hnum.
  pose proof (contiguous_runs_grid x0 y Hlen Hnum Hinc Hrows) as Hruns.
  rewrite serialize_triples in Hf. rewrite (loadtxt_open _ _ _ Hf).
  assert (Hk : kept_x1 (map (fun kr => (fst kr, combine x1 (snd kr)))
                            (combine x0 y)) = np.Arr1 x1).
  { destruct x0 as [|k [|k' l]]; cbn [length] in Hn; try lia.
    destruct y as [|r [|r' y']]; try discriminate.
    inversion Hrows as [|? ? Hr _]; subst.
    destruct (combine_x1_row r Hr) as (_ & Hfst & _).
    cbn [combine map fst snd kept_x1]. now rewrite Hfst. }
  destruct (grid_triples x0 x1 y) as [|t rest] eqn:E.
  { exfalso. destruct x0 as [|k [|k' l]]; cbn [length] in Hn; try lia.
    destruct y as [|r [|r' y']]; discriminate. }
  assert (Ht : fne (key t) (key t) = false).
  { destruct x0 as [|k [|k' l]]; cbn [length] in Hn; try lia.
    destruct y as [|r [|r' y']]; try discriminate.
    inversion Hrows as [|? ? Hr _]; subst.
    destruct (combine_x1_row r Hr) as (Hne & _ & _).
    unfold grid_triples in E. cbn [combine flat_map fst snd] in E.
    destruct (combine x1 r) as [|p ps]; [contradiction|].
    injection E as <- _. inversion Hnum; assumption. }
  destruct (loadtxt_loop_start t rest Ht) as (st & Hst & Hx0 & Hy & Hx1).
  rewrite Hst. cbn [bind]. unfold loadtxt_finish.
  rewrite Hx0, Hy, Hx1, Hruns, Hk, (grid_keys x0 y Hlen),
    (grid_rows x0 y Hlen Hrows).
  rewrite (init_list _ _ _ (rectangular_rows y Hrows)).
  eexists. split; [reflexivity|]. repeat split.
Qed.

End RoundTrip.

(** ** Queries at a native x0 *)

Section ExactMatch.

(** The first and the last item of a sequence that is not empty. *)
Lemma getitem_ends {A : Type} (a : list A) (k : Z) :
  a <> [] -> k = 0%Z \/ k = (-1)%Z -> exists v, np.getitem a k = Ok v.
Proof.
  intros Ha Hk. unfold np.getitem.
  assert (Hn : (0 < Z.of_nat (length a))%Z)
    by (destruct a; [contradiction | simpl; lia]).
  remember (Z.of_nat (length a)) as n eqn:En.
  assert (Hidx : exists j, (if (k <? 0)%Z then (k + n)%Z else k) = j
                           /\ (0 <= j < n)%Z).
  { destruct Hk; subst k.
    - exists 0%Z. split; [reflexivity | lia].
    - exists (-1 + n)%Z. split; [reflexivity | lia]. }
  destruct Hidx as (j & -> & Hj).
  destruct (Z.leb_spec 0 j); [|lia].
  destruct (Z.ltb_spec j n); [|lia]. simpl.
  destruct (nth_error a (Z.to_nat j)) eqn:E; [eauto|].
  apply nth_error_None in E. lia.
Qed.

Variable self : GridData float.

(** A query whose x0 is found among the native x0 ends in the call of
    [index] on an array, whatever [x1] and [extend] are, unless the
    bounds check has raised before. *)
Lemma y_exact_match_raises (q : float) (x1 : option np.ndarray)
      (extend : bool) :
  _x0 self <> [] ->
  np.contains (_x0 self) q = true ->
  y self q x1 extend = Raise no_index
  \/ raises_out_of_range (y self q x1 extend) = true.
Proof.
  intros Hne Hin. unfold y.
  destruct (getitem_ends (_x0 self) 0 Hne (or_introl eq_refl)) as (lo & ->).
  destruct (getitem_ends (_x0 self) (-1) Hne (or_intror eq_refl)) as (hi & ->).
  cbn [bind].
  destruct ((PrimFloat.ltb q lo || fgt q hi) && negb extend).
  - right. reflexivity.
  - left. now rewrite Hin.
Qed.

(** A native x0 that is a number is found among the native x0. *)
Lemma contains_native (i : nat) (q : float) :
  nth_error (_x0 self) i = Some q ->
  PrimFloat.eqb q q = true ->
  np.contains (_x0 self) q = true.
Proof.
  intros Hi Hq. unfold np.contains. apply existsb_exists.
  exists q. split; [|exact Hq]. eapply nth_error_In; eauto.
Qed.

End ExactMatch.

(** C1.  The constructor returns [example_grid] for the arrays
    x0 = [0, 10], x1 = [0, 1, 2], y = [[0,0,0],[10,20,30]].  On it, the
    query at the native x0[0] = 0 does not
    return the row y[0]: it raises [AttributeError]; so does the query at
    x0[1] = 10.  The interpolant built for row 0, called on the native
    x1, returns the values of row 1, not those of row 0. *)
Theorem exact_match_on_example :
  __init__ [0%float; 10%float] (np.Arr1 [0%float; 1%float; 2%float])
           (NdArray example_rows) = Ok example_grid
  /\ y example_grid 0%float None true = Raise no_index
  /\ y example_grid 10%float None true = Raise no_index
  /\ row_interpolant example_grid 0 (_x1 example_grid)
     = Ok [10%float; 20%float; 30%float]
  /\ nth_error (_y example_grid) 0 = Some [0%float; 0%float; 0%float].
Proof. repeat split. Qed.

(** C2.  On the same grid the query [y(5)] returns [[10, 20, 30]], not
    [[5, 10, 15]]: both neighbouring interpolants read the last row.
    With [y] given as a list of lists the query raises [TypeError]. *)
Theorem midpoint_on_example :
  __init__ [0%float; 10%float] (np.Arr1 [0%float; 1%float; 2%float])
           (NdArray example_rows) = Ok example_grid
  /\ y example_grid 5%float None true = Ok [10%float; 20%float; 30%float]
  /\ y example_grid 5%float None true <> Ok [5%float; 10%float; 15%float]
  /\ exists g,
      __init__ [0%float; 10%float] (np.Arr1 [0%float; 1%float; 2%float])
               (PyList example_rows) = Ok g
      /\ y g 5%float None true
         = Raise (TypeError (Format "list indices must be integers or slices, not tuple" [])).
Proof.
  split; [reflexivity|]. split; [reflexivity|]. split.
  - intros H. vm_compute in H. discriminate.
  - eexists. split; reflexivity.
Qed.

(** C4.  On the same grid a query below the first x0 returns a sequence
    while the query at x0[0] raises [AttributeError], so the two are not
    equal; a query above the last x0 and the query at x0[-1] differ in the
    same way. *)
Theorem clamp_on_example :
  __init__ [0%float; 10%float] (np.Arr1 [0%float; 1%float; 2%float])
           (NdArray example_rows) = Ok example_grid
  /\ y example_grid (-1)%float None true = Ok [10%float; 20%float; 30%float]
  /\ y example_grid 0%float None true = Raise no_index
  /\ y example_grid 11%float None true = Ok [10%float; 20%float; 30%float]
  /\ y example_grid 10%float None true = Raise no_index.
Proof. repeat split. Qed.

(** C5.  On the same grid the interior query at 5 returns a sequence,
    while the queries at its two neighbouring native x0, whose values
    the blend is stated from, raise [AttributeError]. *)
Theorem blend_on_example :
  __init__ [0%float; 10%float] (np.Arr1 [0%float; 1%float; 2%float])
           (NdArray example_rows) = Ok example_grid
  /\ y example_grid 5%float (Some (np.Arr1 [0%float; 1%float; 2%float])) true
  = Ok [10%float; 20%float; 30%float]
  /\ y example_grid 0%float (Some (np.Arr1 [0%float; 1%float; 2%float])) true
     = Raise no_index
  /\ y example_grid 10%float (Some (np.Arr1 [0%float; 1%float; 2%float])) true
     = Raise no_index.
Proof. repeat split. Qed.

(** C6.  On the same grid the interpolant of row 0, called left and right
    of the native x1 span [[0, 2]], returns 10 and 30, the edge samples of
    row 1; the edge samples of row 0 are 0 and 0. *)
Theorem flat_extrapolation_on_example :
  __init__ [0%float; 10%float] (np.Arr1 [0%float; 1%float; 2%float])
           (NdArray example_rows) = Ok example_grid
  /\ row_interpolant example_grid 0 (np.Arr1 [(-1)%float; 3%float])
  = Ok [10%float; 30%float]
  /\ nth_error (_y example_grid) 0 = Some [0%float; 0%float; 0%float].
Proof. repeat split. Qed.

(** C8.  The grid of one row x0 = [1], x1 = [0, 1], y = [[5, 6]],
    written as text and loaded, comes back with its x0 and y but with the
    array of the [None] object as x1. *)
Theorem roundtrip_one_row :
  serialize [1%float] [0%float; 1%float] [[5%float; 6%float]]
  = [[1%float; 0%float; 5%float]; [1%float; 1%float; 6%float]]
  /\ exists g,
      fst (loadtxt (one_file "grid.dat"
                      (serialize [1%float] [0%float; 1%float] [[5%float; 6%float]]))
                   "grid.dat" "singleval") = Ok g
      /\ _x0 g = [Some 1%float]
      /\ _y g = [[5%float; 6%float]]
      /\ _x1 g = np.Arr0None
      /\ _x1 g <> np.Arr1 [0%float; 1%float].
Proof.
  split; [reflexivity|]. eexists. split; [reflexivity|].
  repeat split. discriminate.
Qed.

(** * Further properties of the class *)

(** ** Sequences and their items *)

Section Items.

Context {A : Type}.

Lemma getitem_nil (k : Z) :
  np.getitem (@nil A) k = Raise (IndexError (Format "index out of range" [])).
Proof.
  unfold np.getitem. cbn [length Z.of_nat].
  set (k' := if (k <? 0)%Z then (k + 0)%Z else k).
  destruct (Z.leb_spec 0 k'); destruct (Z.ltb_spec k' 0); cbn [andb];
    try reflexivity; lia.
Qed.

(** An index from [-len] to [len - 1] is in range. *)
Lemma getitem_ok (a : list A) (k : Z) :
  (- Z.of_nat (length a) <= k < Z.of_nat (length a))%Z ->
  exists v, np.getitem a k = Ok v.
Proof.
  intros Hk. unfold np.getitem.
  remember (Z.of_nat (length a)) as n eqn:En.
  assert (Hidx : exists j, (if (k <? 0)%Z then (k + n)%Z else k) = j
                           /\ (0 <= j < n)%Z).
  { destruct (Z.ltb_spec k 0); eexists; (split; [reflexivity | lia]). }
  destruct Hidx as (j & -> & Hj).
  destruct (Z.leb_spec 0 j); [|lia].
  destruct (Z.ltb_spec j n); [|lia]. cbn [andb].
  destruct (nth_error a (Z.to_nat j)) eqn:E; [eauto|].
  apply nth_error_None in E. lia.
Qed.

(** An index past the end is out of range. *)
Lemma getitem_past (a : list A) (k : Z) :
  (Z.of_nat (length a) <= k)%Z ->
  np.getitem a k = Raise (IndexError (Format "index out of range" [])).
Proof.
  intros Hk. unfold np.getitem.
  destruct (Z.ltb_spec k 0); [lia|].
  destruct (Z.ltb_spec k (Z.of_nat (length a))); [lia|].
  now rewrite andb_false_r.
Qed.

End Items.

Lemma getitem_lambda (n : nat) (k : Z) (f : lambda) :
  np.getitem (repeat Lambda n) k = Ok f -> f = Lambda.
Proof. destruct f. reflexivity. Qed.

(** ** Queries *)

(** X1.  On a grid without rows every query raises [IndexError], whatever
    the requested x0, x1 and [extend] are: the bounds check reads
    [self._x0[0]] first. *)
Theorem y_empty_grid (self : GridData float) (q : float)
        (x1 : option np.ndarray) (extend : bool) :
  _x0 self = [] ->
  y self q x1 extend = Raise (IndexError (Format "index out of range" [])).
Proof.
  intros H. unfold y. rewrite H, getitem_nil. reflexivity.
Qed.

Lemma y_empty_grid_witness :
  @__init__ float [] (np.Arr1 [0%float; 1%float]) (NdArray [])
  = Ok (init_instance [] (np.Arr1 [0%float; 1%float]) (NdArray []) [])
  /\ y (init_instance [] (np.Arr1 [0%float; 1%float]) (NdArray []) [])
       5%float None false
     = Raise (IndexError (Format "index out of range" [])).
Proof.
  split; [reflexivity|].
  apply (y_empty_grid
           (init_instance [] (np.Arr1 [0%float; 1%float]) (NdArray []) [])
           5%float None false).
  reflexivity.
Defined.

(** X2.  A query with [extend=True] at any native x0 that is a number
    raises [AttributeError], on every grid and for every requested x1:
    the exact-match branch calls [index] on an array. *)
Theorem y_native_key_raises (self : GridData float) (i : nat) (q : float)
        (x1 : option np.ndarray) :
  nth_error (_x0 self) i = Some q ->
  PrimFloat.eqb q q = true ->
  y self q x1 true = Raise no_index.
Proof.
  intros Hi Hq.
  assert (Hne : _x0 self <> []).
  { intros E. rewrite E in Hi. destruct i; discriminate. }
  unfold y.
  destruct (getitem_ends (_x0 self) 0 Hne (or_introl eq_refl)) as (lo & ->).
  destruct (getitem_ends (_x0 self) (-1) Hne (or_intror eq_refl)) as (hi & ->).
  cbn [bind negb]. rewrite andb_false_r.
  assert (Hin : np.contains (_x0 self) q = true).
  { unfold np.contains. apply existsb_exists. exists q.
    split; [eapply nth_error_In; eauto | exact Hq]. }
  now rewrite Hin.
Qed.

Lemma y_native_key_raises_witness :
  y example_grid 10%float (Some (np.Arr1 [7%float])) true = Raise no_index.
Proof.
  apply (y_native_key_raises example_grid 1 10%float (Some (np.Arr1 [7%float])));
    reflexivity.
Defined.

(** X3.  In a grid built from arrays every row interpolant computes the
    interpolation of the last row: whatever valid index it is taken at
    (negative ones included), it returns what [np.interp] returns on
    [y[n-1,:]], [n] the number of rows. *)
Theorem row_interpolants_read_last_row (x0 : list float) (x1 : np.ndarray)
        (rows : list (list float)) (k : Z) (x : np.ndarray) :
  (- Z.of_nat (length x0) <= k < Z.of_nat (length x0))%Z ->
  exists g,
    __init__ x0 x1 (NdArray rows) = Ok g
    /\ row_interpolant g k x = last_row_interp (length x0) x1 (NdArray rows) x.
Proof.
  intros Hk. eexists. split; [apply init_array|].
  unfold row_interpolant. rewrite init_yfuncs.
  destruct (getitem_ok (repeat Lambda (length x0)) k) as (f & Hf).
  { now rewrite repeat_length. }
  rewrite Hf. cbn [bind]. apply call_reads_last_row.
  intros E. rewrite E in Hk. cbn [length Z.of_nat] in Hk. lia.
Qed.

Lemma row_interpolants_read_last_row_witness :
  (exists g,
      __init__ [0%float; 10%float] (np.Arr1 [0%float; 1%float; 2%float])
               (NdArray example_rows) = Ok g
      /\ row_interpolant g 0 (np.Arr1 [1%float])
         = last_row_interp 2 (np.Arr1 [0%float; 1%float; 2%float])
                           (NdArray example_rows) (np.Arr1 [1%float]))
  /\ last_row_interp 2 (np.Arr1 [0%float; 1%float; 2%float])
                     (NdArray example_rows) (np.Arr1 [1%float])
     = Ok [20%float].
Proof.
  split; [|reflexivity].
  apply (row_interpolants_read_last_row
           [0%float; 10%float] (np.Arr1 [0%float; 1%float; 2%float])
           example_rows 0 (np.Arr1 [1%float])).
  cbn [length Z.of_nat]. lia.
Defined.

(** X4.  [extend] only decides whether the out-of-range error is raised:
    with [extend=True] a query never raises it, and a query with
    [extend=False] that does not raise it has the outcome of the same
    query with [extend=True]. *)
Theorem extend_only_gates_error (self : GridData float) (q : float)
        (x1 : option np.ndarray) :
  raises_out_of_range (y self q x1 true) = false
  /\ (raises_out_of_range (y self q x1 false) = false ->
      y self q x1 false = y self q x1 true).
Proof.
  unfold y.
  pose proof (getitem_no_out_of_range (_x0 self) 0) as Glo.
  pose proof (getitem_no_out_of_range (_x0 self) (-1)) as Ghi.
  destruct (np.getitem (_x0 self) 0) as [lo|e]; [|split; [exact Glo | reflexivity]].
  destruct (np.getitem (_x0 self) (-1)) as [hi|e];
    [|split; [exact Ghi | reflexivity]].
  cbn [bind negb]. rewrite andb_false_r, andb_true_r. split.
  - destruct (np.contains (_x0 self) q); [reflexivity|].
    destruct (PrimFloat.ltb q lo); [auto 10 with oor|].
    destruct (fgt q hi); auto 10 with oor.
  - destruct (PrimFloat.ltb q lo || fgt q hi); [discriminate | reflexivity].
Qed.


Lemma extend_only_gates_error_witness :
  raises_out_of_range (y example_grid 11%float None true) = false
  /\ y example_grid 5%float None false = y example_grid 5%float None true.
Proof.
  split.
  - apply (proj1 (extend_only_gates_error example_grid 11%float None)).
  - apply (proj2 (extend_only_gates_error example_grid 5%float None)).
    reflexivity.
Defined.

(** ** What the interpolants of a grid return *)

Section Frames.

Context {K : Type}.
Variables (x0 : list K) (x1 : np.ndarray) (y : yarg) (rows : list (list float)).

(** The lambdas see the [y] the constructor was given. *)
Lemma init_frame_y : fr_y (closure_frame (init_instance x0 x1 y rows)) = y.
Proof.
  unfold init_instance. rewrite init_loop. cbn [closure_frame fst].
  destruct (length x0); reflexivity.
Qed.

End Frames.

(** A lambda whose [y] is a list of lists raises. *)
Lemma call_list_raises {K : Type} (self : GridData K) (rows : list (list float))
      (f : lambda) (x : np.ndarray) :
  fr_y (closure_frame self) = PyList rows ->
  returns (call self f x) = false.
Proof.
  intros H. unfold call. destruct f. rewrite H.
  destruct (fr_i (closure_frame self)); reflexivity.
Qed.

Lemma bind_never_returns {A B : Type} (c : result A) (k : A -> result B) :
  (forall a, c = Ok a -> returns (k a) = false) ->
  returns (bind c k) = false.
Proof. destruct c as [a|e]; cbn [bind]; auto. Qed.

(** X5.  A grid built with [y] given as a list of lists never answers a
    query: whatever the requested x0, x1 and [extend] are, building the
    grid and querying it raises (the constructor refuses rows of
    different lengths, and the lambdas index the list with [y[i,:]]). *)
Theorem list_grid_never_answers (x0 : list float) (x1 : np.ndarray)
        (rows : list (list float)) (q : float) (x1q : option np.ndarray)
        (extend : bool) :
  returns (g <- __init__ x0 x1 (PyList rows) ;; y g q x1q extend) = false.
Proof.
  apply bind_never_returns. intros self Hself.
  apply init_ok_inv in Hself. destruct Hself as (rows' & _ & ->).
  set (self := init_instance x0 x1 (PyList rows) rows').
  assert (Hc : forall f x, returns (call self f x) = false).
  { intros f x. apply (call_list_raises self rows). apply init_frame_y. }
  unfold y.
  apply bind_never_returns; intros lo _.
  apply bind_never_returns; intros hi _.
  destruct ((PrimFloat.ltb q lo || fgt q hi) && negb extend); [reflexivity|].
  destruct (np.contains (_x0 self) q); [reflexivity|].
  destruct (PrimFloat.ltb q lo).
  { apply bind_never_returns; intros f _. apply Hc. }
  destruct (fgt q hi).
  { apply bind_never_returns; intros f _. apply Hc. }
  apply bind_never_returns; intros f0 _.
  apply bind_never_returns; intros y0 Hy0.
  pose proof (Hc f0 (match x1q with None => _x1 self | Some v => v end)) as H.
  rewrite Hy0 in H. discriminate.
Qed.

(** X8.  In a grid built from arrays, a query with [extend=True] whose x0
    is below the first or above the last native x0 (and is not itself a
    native x0) returns the interpolation of the last row over the
    requested x1, on either side. *)
Theorem y_clamps_to_last_row (x0 : list float) (x1 : np.ndarray)
        (rows : list (list float)) (q lo hi : float) (x1q : option np.ndarray) :
  np.getitem x0 0 = Ok lo ->
  np.getitem x0 (-1) = Ok hi ->
  PrimFloat.ltb q lo || fgt q hi = true ->
  np.contains x0 q = false ->
  exists g,
    __init__ x0 x1 (NdArray rows) = Ok g
    /\ y g q x1q true
       = last_row_interp (length x0) x1 (NdArray rows)
                         (match x1q with None => x1 | Some v => v end).
Proof.
  intros Hlo Hhi Hout Hin. eexists. split; [apply init_array|].
  set (self := init_instance x0 x1 (NdArray rows) rows).
  assert (Hne : x0 <> []).
  { intros E. rewrite E, getitem_nil in Hlo. discriminate. }
  assert (Hn : (0 < Z.of_nat (length x0))%Z).
  { destruct x0; [contradiction | cbn [length]; lia]. }
  assert (Hy : _yfuncs self = repeat Lambda (length x0)) by apply init_yfuncs.
  assert (Hx : _x0 self = x0) by reflexivity.
  assert (Hx1 : _x1 self = x1) by reflexivity.
  unfold y. rewrite !Hx, !Hy, Hx1, Hlo, Hhi. cbn [bind negb].
  rewrite andb_false_r, Hin.
  destruct (PrimFloat.ltb q lo).
  - destruct (getitem_ok (repeat Lambda (length x0)) 0) as (f & ->).
    { rewrite repeat_length. lia. }
    cbn [bind]. now apply call_reads_last_row.
  - cbn [orb] in Hout. rewrite Hout.
    destruct (getitem_ok (repeat Lambda (length x0)) (-1)) as (f & ->).
    { rewrite repeat_length. lia. }
    cbn [bind]. now apply call_reads_last_row.
Qed.

Lemma y_clamps_to_last_row_witness :
  (exists g,
      __init__ [0%float; 10%float] (np.Arr1 [0%float; 1%float; 2%float])
               (NdArray example_rows) = Ok g
      /\ y g (-3)%float None true
         = last_row_interp 2 (np.Arr1 [0%float; 1%float; 2%float])
                           (NdArray example_rows)
                           (np.Arr1 [0%float; 1%float; 2%float]))
  /\ (exists g,
        __init__ [0%float; 10%float] (np.Arr1 [0%float; 1%float; 2%float])
                 (NdArray example_rows) = Ok g
        /\ y g 12%float None true
           = last_row_interp 2 (np.Arr1 [0%float; 1%float; 2%float])
                             (NdArray example_rows)
                             (np.Arr1 [0%float; 1%float; 2%float])).
Proof.
  split.
  - apply (y_clamps_to_last_row
             [0%float; 10%float] (np.Arr1 [0%float; 1%float; 2%float])
             example_rows (-3)%float 0%float 10%float None); reflexivity.
  - apply (y_clamps_to_last_row
             [0%float; 10%float] (np.Arr1 [0%float; 1%float; 2%float])
             example_rows 12%float 0%float 10%float None); reflexivity.
Defined.

(** ** Queries that are not a number, and queries inside the grid *)

Section NotANumber.

(** A float that differs from itself compares false with everything. *)
Lemma nan_compares (q a : float) :
  fne q q = true ->
  PrimFloat.ltb q a = false /\ PrimFloat.ltb a q = false
  /\ PrimFloat.eqb a q = false.
Proof.
  unfold fne. rewrite !ltb_spec, !eqb_spec. unfold SFltb, SFeqb.
  intros H. apply negb_true_iff in H.
  assert (Hq : Prim2SF q = S754_nan).
  { destruct (Prim2SF q) as [s|s| |s m e] eqn:E; try reflexivity;
      rewrite SFcompare_refl in H by discriminate; discriminate. }
  rewrite Hq. cbn [SFcompare].
  destruct (Prim2SF a); repeat split.
Qed.

Lemma half_lt (n : nat) : 0 < n -> n / 2 < n.
Proof. intros H. apply Nat.div_lt; lia. Qed.

Variables (a : list float) (key : float).

(** When every element sorts before the key, the bisection ends at the
    upper index. *)
Lemma bisect_all_less :
  (forall m, m < length a -> np.less (nth m a nan) key = true) ->
  forall fuel lo hi,
    lo <= hi <= length a -> hi - lo < fuel ->
    np.bisect_left fuel a key lo hi = hi.
Proof.
  intros Hall. induction fuel as [|fuel IH]; intros lo hi Hb Hf; [lia|].
  cbn [np.bisect_left].
  destruct (Nat.ltb_spec lo hi); [|lia].
  pose proof (half_lt (hi - lo)) as Hh.
  rewrite Hall by lia. apply IH; lia.
Qed.

(** The bisection stays between its indices, and ends at the upper one
    only if the element below it sorts before the key. *)
Lemma bisect_bounds :
  forall fuel lo hi,
    lo <= hi ->
    lo <= np.bisect_left fuel a key lo hi <= hi
    /\ (np.bisect_left fuel a key lo hi = hi ->
        lo = hi \/ np.less (nth (hi - 1) a nan) key = true).
Proof.
  induction fuel as [|fuel IH]; intros lo hi Hb; cbn [np.bisect_left].
  - split; [lia | auto].
  - destruct (Nat.ltb_spec lo hi); [|split; [lia | auto]].
    pose proof (half_lt (hi - lo)) as Hh.
    set (mid := lo + (hi - lo) / 2) in *.
    assert (Hm : lo <= mid < hi) by (subst mid; lia).
    destruct (np.less (nth mid a nan) key) eqn:E.
    + destruct (IH (S mid) hi) as [Hr Hend]; [lia|].
      split; [lia|]. intros Heq. right.
      destruct (Hend Heq) as [Hs | Hl]; [|exact Hl].
      replace (hi - 1) with mid by lia. exact E.
    + destruct (IH lo mid) as [Hr Hend]; [lia|].
      split; [lia|]. intros Heq. lia.
Qed.

End NotANumber.

(** The last item, by position. *)
Lemma getitem_last_nth {A : Type} (a : list A) (v d : A) :
  np.getitem a (-1) = Ok v -> v = nth (length a - 1) a d.
Proof.
  unfold np.getitem. cbn [Z.ltb Z.compare].
  destruct ((0 <=? -1 + Z.of_nat (length a))%Z
            && (-1 + Z.of_nat (length a) <? Z.of_nat (length a))%Z) eqn:E;
    [|discriminate].
  apply andb_true_iff in E. destruct E as [E _]. apply Z.leb_le in E.
  destruct (nth_error a (Z.to_nat (-1 + Z.of_nat (length a)))) eqn:En;
    [|discriminate].
  intros H. injection H as <-.
  replace (Z.to_nat (-1 + Z.of_nat (length a))) with (length a - 1) in En by lia.
  symmetry. now apply nth_error_nth.
Qed.

(** X6.  A query whose x0 is not a number (NaN) never returns a value on
    a grid whose native x0 are numbers, with either value of [extend]:
    it passes the bounds check, matches no branch, and the search sends
    it past the last interpolant. *)
Theorem y_nan_never_answers {x0 : list float} (x1 : np.ndarray) (yv : yarg)
        (q : float) (x1q : option np.ndarray) (extend : bool) :
  x0 <> [] ->
  Forall (fun k => PrimFloat.eqb k k = true) x0 ->
  fne q q = true ->
  returns (g <- __init__ x0 x1 yv ;; y g q x1q extend) = false.
Proof.
  intros Hne Hnum Hq.
  apply bind_never_returns. intros self Hself.
  apply init_ok_inv in Hself. destruct Hself as (rows' & _ & ->).
  set (self := init_instance x0 x1 yv rows').
  assert (Hy : _yfuncs self = repeat Lambda (length x0)) by apply init_yfuncs.
  assert (Hx : _x0 self = x0) by reflexivity.
  unfold y. rewrite !Hx, !Hy.
  destruct (getitem_ends x0 0 Hne (or_introl eq_refl)) as (lo & ->).
  destruct (getitem_ends x0 (-1) Hne (or_intror eq_refl)) as (hi & ->).
  cbn [bind]. unfold fgt.
  destruct (nan_compares q lo Hq) as (-> & _ & _).
  destruct (nan_compares q hi Hq) as (_ & -> & _).
  cbn [orb andb].
  assert (Hin : np.contains x0 q = false).
  { unfold np.contains. apply not_true_is_false. intros H.
    apply existsb_exists in H. destruct H as (e & _ & He).
    destruct (nan_compares q e Hq) as (_ & _ & E). congruence. }
  rewrite Hin.
  assert (Hs : np.searchsorted x0 q = Z.of_nat (length x0)).
  { unfold np.searchsorted. f_equal. apply bisect_all_less; [|lia|lia].
    intros m Hm. unfold np.less. rewrite Hq.
    rewrite Forall_forall in Hnum.
    rewrite (Hnum (nth m x0 nan) (nth_In _ _ Hm)).
    now rewrite orb_true_r. }
  rewrite Hs.
  apply bind_never_returns; intros f0 _.
  apply bind_never_returns; intros y0 _.
  rewrite getitem_past; [reflexivity|].
  rewrite repeat_length. lia.
Qed.

Lemma y_nan_never_answers_witness :
  returns (g <- __init__ [0%float; 10%float]
                         (np.Arr1 [0%float; 1%float; 2%float])
                         (NdArray example_rows) ;;
           y g nan None true) = false
  /\ returns (g <- __init__ [0%float; 10%float]
                            (np.Arr1 [0%float; 1%float; 2%float])
                            (NdArray example_rows) ;;
              y g nan None false) = false.
Proof.
  split.
  - apply (@y_nan_never_answers [0%float; 10%float]
             (np.Arr1 [0%float; 1%float; 2%float]) (NdArray example_rows)
             nan None true);
      [discriminate | repeat constructor | reflexivity].
  - apply (@y_nan_never_answers [0%float; 10%float]
             (np.Arr1 [0%float; 1%float; 2%float]) (NdArray example_rows)
             nan None false);
      [discriminate | repeat constructor | reflexivity].
Defined.

Lemma map2_length (f : float -> float -> float) (a b : list float) :
  length (np.map2 f a b) = Nat.min (length a) (length b).
Proof.
  revert b. induction a as [|u a IH]; intros [|v b]; cbn [np.map2 length];
    try reflexivity.
  now rewrite IH.
Qed.

(** X7.  In a grid built from arrays whose last row has one value per
    native x1 (and there is at least one x1), a query with [extend=True]
    at any number that is not a native x0 returns a sequence with one
    value per requested x1: below, above and between the native x0 no
    index or interpolation error occurs. *)
Theorem y_returns_one_value_per_x1 (x0 x1 : list float)
        (rows : list (list float)) (row : list float) (q : float)
        (x : list float) :
  x0 <> [] ->
  x1 <> [] ->
  nth_error rows (length x0 - 1) = Some row ->
  length row = length x1 ->
  PrimFloat.eqb q q = true ->
  np.contains x0 q = false ->
  exists g l,
    __init__ x0 (np.Arr1 x1) (NdArray rows) = Ok g
    /\ y g q (Some (np.Arr1 x)) true = Ok l
    /\ length l = length x.
Proof.
  intros Hne Hx1 Hrow Hlen Hq Hin.
  exists (init_instance x0 (np.Arr1 x1) (NdArray rows) rows).
  cut (exists l,
          y (init_instance x0 (np.Arr1 x1) (NdArray rows) rows) q
            (Some (np.Arr1 x)) true = Ok l
          /\ length l = length x).
  { intros (l & H1 & H2). exists l. split; [apply init_array | auto]. }
  set (self := init_instance x0 (np.Arr1 x1) (NdArray rows) rows).
  set (v0 := map (np.interp1 x1 row) x).
  assert (Hn : (0 < Z.of_nat (length x0))%Z).
  { destruct x0; [contradiction | cbn [length]; lia]. }
  assert (Hcall : forall f, call self f (np.Arr1 x) = Ok v0).
  { intros f. unfold self. rewrite call_reads_last_row by assumption.
    cbn [yarg_row]. rewrite Hrow. cbn [bind np.interp].
    destruct (Nat.eqb_spec (length x1) 0) as [E|_].
    { destruct x1; [contradiction | discriminate]. }
    rewrite Hlen, Nat.eqb_refl. reflexivity. }
  assert (Hv0 : length v0 = length x) by apply length_map.
  assert (Hy : _yfuncs self = repeat Lambda (length x0)) by apply init_yfuncs.
  assert (Hx : _x0 self = x0) by reflexivity.
  unfold y. rewrite !Hx, !Hy.
  destruct (getitem_ends x0 0 Hne (or_introl eq_refl)) as (lo & ->).
  destruct (getitem_ends x0 (-1) Hne (or_intror eq_refl)) as (hi & Hhi).
  rewrite Hhi. cbn [bind negb]. rewrite andb_false_r, Hin.
  destruct (PrimFloat.ltb q lo).
  { destruct (getitem_ok (repeat Lambda (length x0)) 0) as (f & ->).
    { rewrite repeat_length. lia. }
    cbn [bind]. rewrite Hcall. eauto. }
  destruct (fgt q hi) eqn:Hgt.
  { destruct (getitem_ok (repeat Lambda (length x0)) (-1)) as (f & ->).
    { rewrite repeat_length. lia. }
    cbn [bind]. rewrite Hcall. eauto. }
  unfold np.searchsorted.
  destruct (bisect_bounds x0 q (S (length x0)) 0 (length x0)) as [Hr Hend];
    [lia|].
  set (r := np.bisect_left (S (length x0)) x0 q 0 (length x0)) in *.
  assert (Hlt : r < length x0).
  { destruct (Nat.eq_dec r (length x0)) as [E|]; [|lia].
    destruct (Hend E) as [E0 | Hl]; [lia|].
    rewrite <- (getitem_last_nth x0 hi nan Hhi) in Hl.
    unfold np.less, fne in Hl. unfold fgt in Hgt.
    rewrite Hgt, Hq in Hl. discriminate. }
  destruct (getitem_ok (repeat Lambda (length x0)) (Z.of_nat r - 1)) as (f0 & ->).
  { rewrite repeat_length. lia. }
  destruct (getitem_ok (repeat Lambda (length x0)) (Z.of_nat r)) as (f1 & ->).
  { rewrite repeat_length. lia. }
  destruct (getitem_ok x0 (Z.of_nat r - 1)) as (a & ->); [lia|].
  destruct (getitem_ok x0 (Z.of_nat r)) as (b & ->); [lia|].
  cbn [bind]. rewrite !Hcall. cbn [bind]. eexists. split; [reflexivity|].
  rewrite !map2_length, length_map, map2_length. lia.
Qed.

Lemma y_returns_one_value_per_x1_witness :
  exists g l,
    __init__ [0%float; 10%float] (np.Arr1 [0%float; 1%float; 2%float])
             (NdArray example_rows) = Ok g
    /\ y g 5%float (Some (np.Arr1 [0.5%float; 7%float])) true = Ok l
    /\ length l = 2.
Proof.
  apply (y_returns_one_value_per_x1
           [0%float; 10%float] [0%float; 1%float; 2%float] example_rows
           [10%float; 20%float; 30%float] 5%float [0.5%float; 7%float]);
    try reflexivity; discriminate.
Defined.

(** ** Loading: errors, edge cases and invariants *)

Section LoaderOutcomes.

Lemma loadtxt_ok_inv (w : world) (filename fmt : string)
      (g : GridData (option float)) :
  fst (loadtxt w filename fmt) = Ok g ->
  exists lines st rows,
    fmt = "singleval"
    /\ files w filename = Some lines
    /\ loadtxt_loop loadtxt_start lines = Ok st
    /\ asarray_y (PyList (Locals.y st ++ [Locals.y1_current st])) = Ok rows
    /\ g = init_instance (Locals.x0 st ++ [Locals.x0_current st])
                         (asarray (Locals.x1 st))
                         (PyList (Locals.y st ++ [Locals.y1_current st]))
                         rows.
Proof.
  unfold loadtxt, open.
  destruct (String.eqb_spec fmt "singleval") as [->|]; [|discriminate].
  cbn [negb]. destruct (files w filename) as [lines|]; [|discriminate].
  cbn [fst bind].
  destruct (loadtxt_loop loadtxt_start lines) as [st|e] eqn:Hst; [|discriminate].
  cbn [bind]. unfold loadtxt_finish. intros H.
  apply init_ok_inv in H. destruct H as (rows & Hrows & ->).
  exists lines, st, rows. repeat split; assumption.
Qed.

(** The rows that [np.asarray] returns for a list are the rows of the
    list. *)
Lemma asarray_y_list (rows rows' : list (list float)) :
  asarray_y (PyList rows) = Ok rows' -> rows' = rows.
Proof.
  cbn [asarray_y]. destruct (np.rectangular rows); [|discriminate].
  intros H. now injection H.
Qed.

Lemma loadtxt_line_ok (st : Locals.t) (line : list float) :
  length line = 3 -> exists st', loadtxt_line st line = Ok st'.
Proof.
  destruct line as [|a [|b [|c [|d l]]]]; try discriminate.
  intros _. cbn [loadtxt_line]. eauto.
Qed.

Lemma loadtxt_line_bad (st : Locals.t) (line : list float) :
  length line <> 3 ->
  loadtxt_line st line
  = Raise (ValueError (Format "wrong number of values to unpack" [])).
Proof.
  destruct line as [|a [|b [|c [|d l]]]]; try reflexivity.
  intros H. now contradiction H.
Qed.

Lemma loadtxt_loop_app (st : Locals.t) (l1 l2 : list (list float)) :
  loadtxt_loop st (l1 ++ l2)
  = (st' <- loadtxt_loop st l1 ;; loadtxt_loop st' l2).
Proof.
  revert st. induction l1 as [|l l1 IH]; intros st; [reflexivity|].
  cbn [app loadtxt_loop]. destruct (loadtxt_line st l); [apply IH | reflexivity].
Qed.

Lemma loadtxt_loop_ok (lines : list (list float)) :
  Forall (fun l => length l = 3) lines ->
  forall st, exists st', loadtxt_loop st lines = Ok st'.
Proof.
  induction 1 as [|l lines Hl _ IH]; intros st; [cbn; eauto|].
  cbn [loadtxt_loop]. destruct (loadtxt_line_ok st l Hl) as (st1 & ->).
  apply IH.
Qed.


End LoaderOutcomes.

(** X10.  A file with a line that has not exactly three fields is
    refused: [loadtxt] raises [ValueError] at the first such line and
    returns no grid, whatever the lines after it are. *)
Theorem loadtxt_malformed_line (w : world) (filename : string)
        (pre post : list (list float)) (bad : list float) :
  files w filename = Some (pre ++ bad :: post) ->
  Forall (fun l => length l = 3) pre ->
  length bad <> 3 ->
  fst (loadtxt w filename "singleval")
  = Raise (ValueError (Format "wrong number of values to unpack" [])).
Proof.
  intros Hf Hpre Hbad. rewrite (loadtxt_open _ _ _ Hf), loadtxt_loop_app.
  destruct (loadtxt_loop_ok pre Hpre loadtxt_start) as (st & ->).
  cbn [bind loadtxt_loop]. rewrite (loadtxt_line_bad st bad Hbad). reflexivity.
Qed.

Lemma loadtxt_malformed_line_witness :
  fst (loadtxt (one_file "grid.dat"
                  [[1%float; 0%float; 5%float]; [1%float; 6%float];
                   [2%float; 0%float; 7%float]])
               "grid.dat" "singleval")
  = Raise (ValueError (Format "wrong number of values to unpack" [])).
Proof.
  apply (loadtxt_malformed_line
           (one_file "grid.dat"
              [[1%float; 0%float; 5%float]; [1%float; 6%float];
               [2%float; 0%float; 7%float]])
           "grid.dat" [[1%float; 0%float; 5%float]]
           [[2%float; 0%float; 7%float]] [1%float; 6%float]).
  - reflexivity.
  - repeat constructor.
  - discriminate.
Defined.

(** X11.  An empty file is not refused: [loadtxt] returns what the
    constructor returns for x0 = [None], x1 = None and y = [[]], a grid of
    one row whose key is the [None] object, whose row is empty and whose
    x1 is the array of the [None] object. *)
Theorem loadtxt_empty_file (w : world) (filename : string) :
  files w filename = Some [] ->
  fst (loadtxt w filename "singleval")
  = __init__ [None] np.Arr0None (PyList [[]])
  /\ exists g,
      fst (loadtxt w filename "singleval") = Ok g
      /\ _x0 g = [None]
      /\ _x1 g = np.Arr0None
      /\ _y g = [[]]
      /\ length (_yfuncs g) = 1.
Proof.
  intros Hf. rewrite (loadtxt_open _ _ _ Hf). split; [reflexivity|].
  eexists. split; [reflexivity|]. repeat split.
Qed.

Lemma loadtxt_empty_file_witness :
  fst (loadtxt (one_file "grid.dat" []) "grid.dat" "singleval")
  = __init__ [None] np.Arr0None (PyList [[]])
  /\ exists g,
      fst (loadtxt (one_file "grid.dat" []) "grid.dat" "singleval") = Ok g
      /\ _x0 g = [None]
      /\ _x1 g = np.Arr0None
      /\ _y g = [[]]
      /\ length (_yfuncs g) = 1.
Proof.
  apply (loadtxt_empty_file (one_file "grid.dat" []) "grid.dat").
  reflexivity.
Defined.

(** X12.  Every grid that [loadtxt] returns has at least one row, as
    many rows of values as row keys, and one interpolant per row key. *)
Theorem loadtxt_row_counts (w : world) (filename fmt : string)
        (g : GridData (option float)) :
  fst (loadtxt w filename fmt) = Ok g ->
  1 <= length (_x0 g)
  /\ length (_y g) = length (_x0 g)
  /\ length (_yfuncs g) = length (_x0 g).
Proof.
  intros H. apply loadtxt_ok_inv in H.
  destruct H as (lines & st & rows & _ & _ & Hst & Hrows & ->).
  apply asarray_y_list in Hrows. subst rows.
  rewrite init_yfuncs, repeat_length.
  cbn [_x0 _y init_instance]. rewrite !length_app. cbn [length].
  assert (Hinv : forall ls s s',
             loadtxt_loop s ls = Ok s' ->
             length (Locals.x0 s) = length (Locals.y s) ->
             length (Locals.x0 s') = length (Locals.y s')).
  { induction ls as [|l ls IH]; intros s s' Hs E.
    - injection Hs as <-. exact E.
    - cbn [loadtxt_loop] in Hs.
      destruct (loadtxt_line s l) as [s1|e] eqn:Hl; [|discriminate].
      apply (IH s1 s' Hs).
      destruct l as [|a [|b [|c [|d l]]]]; try discriminate.
      cbn [loadtxt_line] in Hl.
      destruct (differs _ _) in Hl; injection Hl as <-;
        cbn [Locals.x0 Locals.y]; [|exact E].
      rewrite !length_app. cbn [length]. lia. }
  pose proof (Hinv lines loadtxt_start st Hst eq_refl) as E.
  lia.
Qed.

Lemma loadtxt_row_counts_witness :
  1 <= length (_x0 (init_instance [Some 1%float; Some 2%float]
                                  (np.Arr1 [0%float; 1%float])
                                  (PyList [[5%float; 6%float];
                                           [7%float; 8%float]])
                                  [[5%float; 6%float]; [7%float; 8%float]]))
  /\ length (_y (init_instance [Some 1%float; Some 2%float]
                               (np.Arr1 [0%float; 1%float])
                               (PyList [[5%float; 6%float];
                                        [7%float; 8%float]])
                               [[5%float; 6%float]; [7%float; 8%float]]))
     = length (_x0 (init_instance [Some 1%float; Some 2%float]
                                  (np.Arr1 [0%float; 1%float])
                                  (PyList [[5%float; 6%float];
                                           [7%float; 8%float]])
                                  [[5%float; 6%float]; [7%float; 8%float]]))
  /\ length (_yfuncs (init_instance [Some 1%float; Some 2%float]
                                    (np.Arr1 [0%float; 1%float])
                                    (PyList [[5%float; 6%float];
                                             [7%float; 8%float]])
                                    [[5%float; 6%float]; [7%float; 8%float]]))
     = length (_x0 (init_instance [Some 1%float; Some 2%float]
                                  (np.Arr1 [0%float; 1%float])
                                  (PyList [[5%float; 6%float];
                                           [7%float; 8%float]])
                                  [[5%float; 6%float]; [7%float; 8%float]])).
Proof.
  apply (loadtxt_row_counts
           (one_file "grid.dat"
              [[1%float; 0%float; 5%float]; [1%float; 1%float; 6%float];
               [2%float; 0%float; 7%float]; [2%float; 1%float; 8%float]])
           "grid.dat" "singleval").
  reflexivity.
Defined.



(** X14.  Every row interpolant of a grid that [loadtxt] returns raises
    [TypeError] on every argument: the loader passes [y] as a list of
    lists, which [y[i,:]] cannot index. *)
Theorem loaded_interpolants_raise (w : world) (filename fmt : string)
        (g : GridData (option float)) (f : lambda) (x : np.ndarray) :
  fst (loadtxt w filename fmt) = Ok g ->
  call g f x = Raise list_index.
Proof.
  intros H. apply loadtxt_ok_inv in H.
  destruct H as (lines & st & rows & _ & _ & _ & _ & ->).
  unfold call. destruct f.
  rewrite init_frame; [reflexivity|].
  intros E. apply app_eq_nil in E. destruct E as [_ E]. discriminate.
Qed.

Lemma loaded_interpolants_raise_witness :
  call (init_instance [Some 1%float; Some 2%float] (np.Arr1 [0%float])
                      (PyList [[5%float]; [6%float]]) [[5%float]; [6%float]])
       Lambda (np.Arr1 [0%float])
  = Raise list_index.
Proof.
  apply (loaded_interpolants_raise
           (one_file "grid.dat"
              [[1%float; 0%float; 5%float]; [2%float; 0%float; 6%float]])
           "grid.dat" "singleval").
  reflexivity.
Defined.

(** X15.  Round trip.  A grid with at least two rows, strictly increasing
    x0 and at least one x1, every row having one value per x1, written as
    text and loaded, gives what the constructor returns for its x0, x1
    and y: an instance whose three arrays are the ones written. *)
Theorem loadtxt_serialize (w : world) (filename : string)
        (x0 x1 : list float) (y : list (list float)) :
  files w filename = Some (serialize x0 x1 y) ->
  increasing x0 = true ->
  2 <= length x0 ->
  length y = length x0 ->
  x1 <> [] ->
  Forall (fun r => length r = length x1) y ->
  fst (loadtxt w filename "singleval")
  = __init__ (map Some x0) (np.Arr1 x1) (PyList y)
  /\ exists g,
      fst (loadtxt w filename "singleval") = Ok g
      /\ _x0 g = map Some x0
      /\ _x1 g = np.Arr1 x1
      /\ _y g = y.
Proof.
  intros Hf Hinc Hn Hlen Hx1 Hrows.
  destruct (roundtrip_two_rows x1 Hx1 w filename x0 y Hf Hinc Hn Hlen Hrows)
    as (g & Hg & E0 & E1 & Ey).
  split; [|eauto].
  rewrite Hg, (init_list _ _ _ (rectangular_rows x1 y Hrows)). f_equal.
  apply loadtxt_ok_inv in Hg.
  destruct Hg as (lines & st & rows & _ & _ & _ & Hr & ->).
  apply asarray_y_list in Hr. subst rows.
  cbn [_x0 _x1 _y init_instance] in E0, E1, Ey.
  unfold init_instance. now rewrite E0, E1, Ey.
Qed.

Lemma loadtxt_serialize_witness :
  fst (loadtxt (one_file "grid.dat"
                  (serialize [0%float; 10%float] [0%float; 1%float; 2%float]
                             example_rows))
               "grid.dat" "singleval")
  = __init__ [Some 0%float; Some 10%float]
             (np.Arr1 [0%float; 1%float; 2%float]) (PyList example_rows)
  /\ exists g,
      fst (loadtxt (one_file "grid.dat"
                      (serialize [0%float; 10%float]
                                 [0%float; 1%float; 2%float] example_rows))
                   "grid.dat" "singleval") = Ok g
      /\ _x0 g = [Some 0%float; Some 10%float]
      /\ _x1 g = np.Arr1 [0%float; 1%float; 2%float]
      /\ _y g = example_rows.
Proof.
  apply (loadtxt_serialize
           (one_file "grid.dat"
              (serialize [0%float; 10%float] [0%float; 1%float; 2%float]
                         example_rows))
           "grid.dat" [0%float; 10%float] [0%float; 1%float; 2%float]
           example_rows).
  - reflexivity.
  - reflexivity.
  - cbn [length]. lia.
  - reflexivity.
  - discriminate.
  - repeat constructor.
Defined.

(** X16.  When the x0 of the first line is not a number the file is
    refused.  The test [x0_tmp != x0_current] holds on the first line
    itself, so the loop ends with a row without values before the rows
    of the file and with the empty list as x1; [np.asarray(y)] then
    raises [ValueError] on rows of different lengths. *)
Theorem loadtxt_nan_first_key (w : world) (filename : string)
        (t : float * float * float) (rest : list (float * float * float)) :
  files w filename = Some (map line_of (t :: rest)) ->
  fne (key t) (key t) = true ->
  fst (loadtxt w filename "singleval") = Raise inhomogeneous
  /\ exists st,
      loadtxt_loop loadtxt_start (map line_of (t :: rest)) = Ok st
      /\ Locals.x0 st ++ [Locals.x0_current st]
         = Some (key t)
           :: map (fun r => Some (fst r)) (contiguous_runs (t :: rest))
      /\ Locals.y st ++ [Locals.y1_current st]
         = [] :: map (fun r => map snd (snd r)) (contiguous_runs (t :: rest))
      /\ Locals.x1 st = Some [].
Proof.
  intros Hf Ht. rewrite (loadtxt_open _ _ _ Hf).
  destruct (loadtxt_loop_start_nan t rest Ht) as (st & Hst & Hx0 & Hy & Hx1).
  split.
  - rewrite Hst. cbn [bind]. unfold loadtxt_finish. rewrite Hy.
    apply init_ragged, ragged_after_empty.
  - exists st. repeat split; try assumption.
    destruct (Locals.x1 st) as [[|v l]|]; try discriminate. reflexivity.
Qed.

Lemma loadtxt_nan_first_key_witness :
  fst (loadtxt (one_file "grid.dat"
                  [[nan; 0%float; 5%float]; [1%float; 0%float; 6%float]])
               "grid.dat" "singleval") = Raise inhomogeneous
  /\ exists st,
      loadtxt_loop loadtxt_start
                   [[nan; 0%float; 5%float]; [1%float; 0%float; 6%float]]
      = Ok st
      /\ Locals.x0 st ++ [Locals.x0_current st]
         = [Some nan; Some nan; Some 1%float]
      /\ Locals.y st ++ [Locals.y1_current st] = [[]; [5%float]; [6%float]]
      /\ Locals.x1 st = Some [].
Proof.
  apply (loadtxt_nan_first_key
           (one_file "grid.dat"
              [[nan; 0%float; 5%float]; [1%float; 0%float; 6%float]])
           "grid.dat" (nan, 0%float, 5%float) [(1%float, 0%float, 6%float)]);
    reflexivity.
Defined.

Section LaterGroups.

(** Once an x1 has been kept, lines that differ only in their x1 lead to
    the same instance. *)
Lemma loadtxt_loop_ignores_x1 (ls ls' : list (float * float * float)) :
  Forall2 same_key_y ls ls' ->
  forall (x0 : list (option float)) (v : list float) (y : list (list float))
         (c : float) (xs xs' ys : list float),
  exists st st',
    loadtxt_loop (Locals.mk x0 (Some v) y (Some c) xs ys) (map line_of ls)
    = Ok st
    /\ loadtxt_loop (Locals.mk x0 (Some v) y (Some c) xs' ys) (map line_of ls')
       = Ok st'
    /\ loadtxt_finish st = loadtxt_finish st'.
Proof.
  induction 1 as [|t t' ls ls' [Hk Hy] _ IH]; intros x0 v y c xs xs' ys.
  - do 2 eexists. repeat split.
  - change (map line_of (t :: ls)) with (line_of t :: map line_of ls).
    change (map line_of (t' :: ls')) with (line_of t' :: map line_of ls').
    cbn [loadtxt_loop].
    destruct (fne (key t) c) eqn:E.
    + rewrite (loadtxt_line_new _ _ _ _ _ _ _ E).
      rewrite Hk in E. rewrite (loadtxt_line_new _ _ _ _ _ _ _ E).
      rewrite <- Hk, <- Hy. cbn [bind]. apply IH.
    + rewrite (loadtxt_line_same _ _ _ _ _ _ _ E).
      rewrite Hk in E. rewrite (loadtxt_line_same _ _ _ _ _ _ _ E).
      rewrite <- Hy. cbn [bind]. apply IH.
Qed.

End LaterGroups.

(** X17.  Only the x1 of the first group are read.  Two files that have
    the same first group, and after it lines with the same x0 and y but
    any x1, load to the same instance: the x1 of the later groups are
    neither kept nor compared with those of the first. *)
Theorem loadtxt_later_x1_ignored (w w' : world) (filename filename' : string)
        (t : float * float * float) (more : list (float * float * float))
        (r r' : float * float * float) (rest rest' : list (float * float * float)) :
  files w filename = Some (map line_of ((t :: more) ++ r :: rest)) ->
  files w' filename' = Some (map line_of ((t :: more) ++ r' :: rest')) ->
  Forall (fun u => fne (key u) (key t) = false) (t :: more) ->
  fne (key r) (key t) = true ->
  Forall2 same_key_y (r :: rest) (r' :: rest') ->
  fst (loadtxt w filename "singleval") = fst (loadtxt w' filename' "singleval").
Proof.
  intros Hf Hf' Hfirst Hr Hsame.
  inversion Hfirst as [|? ? Ht Hmore]; subst.
  inversion Hsame as [|? ? ? ? [Hk Hy] Hrest]; subst.
  rewrite (loadtxt_open _ _ _ Hf), (loadtxt_open _ _ _ Hf').
  rewrite !map_app, !loadtxt_loop_app.
  change (map line_of (t :: more)) with (line_of t :: map line_of more).
  cbn [loadtxt_loop]. rewrite (loadtxt_line_first _ Ht). cbn [bind].
  rewrite (loadtxt_loop_same _ _ _ _ _ _ _ Hmore). cbn [bind].
  change (map line_of (r :: rest)) with (line_of r :: map line_of rest).
  change (map line_of (r' :: rest')) with (line_of r' :: map line_of rest').
  cbn [loadtxt_loop]. rewrite (loadtxt_line_new _ _ _ _ _ _ _ Hr).
  rewrite Hk in Hr. rewrite (loadtxt_line_new _ _ _ _ _ _ _ Hr).
  rewrite <- Hk, <- Hy. cbn [bind].
  match goal with
  | |- context [loadtxt_loop (Locals.mk ?x0 (Some ?v) ?y (Some ?c) ?xs ?ys)
                             (map line_of rest)] =>
      destruct (loadtxt_loop_ignores_x1 rest rest' Hrest x0 v y c xs
                                        [snd (fst r')] ys)
        as (st & st' & -> & -> & E)
  end.
  cbn [bind]. now rewrite E.
Qed.

Lemma loadtxt_later_x1_ignored_witness :
  fst (loadtxt (one_file "a.dat"
                  [[1%float; 0%float; 5%float]; [1%float; 1%float; 6%float];
                   [2%float; 0%float; 7%float]; [2%float; 1%float; 8%float]])
               "a.dat" "singleval")
  = fst (loadtxt (one_file "b.dat"
                    [[1%float; 0%float; 5%float]; [1%float; 1%float; 6%float];
                     [2%float; 100%float; 7%float]; [2%float; 50%float; 8%float]])
                 "b.dat" "singleval").
Proof.
  apply (loadtxt_later_x1_ignored
           (one_file "a.dat"
              [[1%float; 0%float; 5%float]; [1%float; 1%float; 6%float];
               [2%float; 0%float; 7%float]; [2%float; 1%float; 8%float]])
           (one_file "b.dat"
              [[1%float; 0%float; 5%float]; [1%float; 1%float; 6%float];
               [2%float; 100%float; 7%float]; [2%float; 50%float; 8%float]])
           "a.dat" "b.dat"
           (1%float, 0%float, 5%float) [(1%float, 1%float, 6%float)]
           (2%float, 0%float, 7%float) (2%float, 100%float, 7%float)
           [(2%float, 1%float, 8%float)] [(2%float, 50%float, 8%float)]).
  - reflexivity.
  - reflexivity.
  - repeat constructor.
  - reflexivity.
  - repeat constructor.
Defined.

(** ** What a query depends on *)

Section QueryDependence.

Lemma bind_ext {A B : Type} (c : result A) (k k' : A -> result B) :
  (forall a, k a = k' a) -> bind c k = bind c k'.
Proof. intros H. destruct c; cbn [bind]; auto. Qed.

(** Two instances with the same native x0 and x1, as many interpolants,
    and interpolants that return the same, answer every query alike. *)
Lemma y_ext (s s' : GridData float) :
  _x0 s = _x0 s' ->
  _x1 s = _x1 s' ->
  _yfuncs s = _yfuncs s' ->
  (forall f x, call s f x = call s' f x) ->
  forall q x1q extend, y s q x1q extend = y s' q x1q extend.
Proof.
  intros H0 H1 Hf Hc q x1q extend. unfold y. rewrite H0, H1, Hf.
  apply bind_ext; intros lo. apply bind_ext; intros hi.
  destruct ((PrimFloat.ltb q lo || fgt q hi) && negb extend); [reflexivity|].
  destruct (np.contains (_x0 s') q); [reflexivity|].
  destruct (PrimFloat.ltb q lo); [apply bind_ext; intros f; apply Hc|].
  destruct (fgt q hi); [apply bind_ext; intros f; apply Hc|].
  apply bind_ext; intros f0. rewrite Hc. apply bind_ext; intros y0.
  apply bind_ext; intros f1. rewrite Hc. reflexivity.
Qed.

(** When no interpolant returns, no query does. *)
Lemma y_never_returns (s : GridData float) :
  (forall f x, returns (call s f x) = false) ->
  forall q x1q extend, returns (y s q x1q extend) = false.
Proof.
  intros Hc q x1q extend. unfold y.
  apply bind_never_returns; intros lo _.
  apply bind_never_returns; intros hi _.
  destruct ((PrimFloat.ltb q lo || fgt q hi) && negb extend); [reflexivity|].
  destruct (np.contains (_x0 s) q); [reflexivity|].
  destruct (PrimFloat.ltb q lo).
  { apply bind_never_returns; intros f _. apply Hc. }
  destruct (fgt q hi).
  { apply bind_never_returns; intros f _. apply Hc. }
  apply bind_never_returns; intros f0 _.
  apply bind_never_returns; intros y0 Hy0.
  pose proof (Hc f0 (match x1q with None => _x1 s | Some v => v end)) as H.
  rewrite Hy0 in H. discriminate.
Qed.

End QueryDependence.

(** X18.  The outcome of every query on a grid built from arrays depends
    on [y] through its last row only: two grids with the same x0 and x1
    whose [y] agree on row [n - 1], [n] the number of row keys, give the
    same outcome for every requested x0, x1 and [extend], whatever their
    other rows hold. *)
Theorem y_depends_on_last_row_only (x0 : list float) (x1 : np.ndarray)
        (rows rows' : list (list float)) (q : float)
        (x1q : option np.ndarray) (extend : bool) :
  nth_error rows (length x0 - 1) = nth_error rows' (length x0 - 1) ->
  exists g g',
    __init__ x0 x1 (NdArray rows) = Ok g
    /\ __init__ x0 x1 (NdArray rows') = Ok g'
    /\ y g q x1q extend = y g' q x1q extend.
Proof.
  intros Hlast. do 2 eexists.
  split; [apply init_array|]. split; [apply init_array|].
  apply y_ext; try reflexivity.
  - now rewrite !init_yfuncs.
  - intros f x. destruct x0 as [|k l]; [reflexivity|].
    rewrite !call_reads_last_row by discriminate.
    cbn [yarg_row]. now rewrite Hlast.
Qed.

Lemma y_depends_on_last_row_only_witness :
  exists g g',
    __init__ [0%float; 10%float] (np.Arr1 [0%float; 1%float; 2%float])
             (NdArray example_rows) = Ok g
    /\ __init__ [0%float; 10%float] (np.Arr1 [0%float; 1%float; 2%float])
                (NdArray [[7%float; 8%float; 9%float];
                          [10%float; 20%float; 30%float]]) = Ok g'
    /\ y g 5%float None true = y g' 5%float None true.
Proof.
  apply (y_depends_on_last_row_only
           [0%float; 10%float] (np.Arr1 [0%float; 1%float; 2%float])
           example_rows
           [[7%float; 8%float; 9%float]; [10%float; 20%float; 30%float]]
           5%float None true).
  reflexivity.
Defined.

(** X19.  Shapes are checked when a query runs, not when the grid is
    built: if [y] has fewer rows than there are row keys, or its last
    row has not one value per native x1, the constructor still returns
    an instance and every query on it raises. *)
Theorem y_shape_mismatch (x0 x1 : list float) (rows : list (list float))
        (q : float) (x1q : option np.ndarray) (extend : bool) :
  match nth_error rows (length x0 - 1) with
  | Some row => length row <> length x1
  | None => True
  end ->
  exists g,
    __init__ x0 (np.Arr1 x1) (NdArray rows) = Ok g
    /\ returns (y g q x1q extend) = false.
Proof.
  intros Hshape. eexists. split; [apply init_array|].
  apply y_never_returns. intros f x.
  destruct x0 as [|k l]; [destruct f; reflexivity|].
  rewrite call_reads_last_row by discriminate. cbn [yarg_row].
  destruct (nth_error rows (length (k :: l) - 1)) as [row|]; [|reflexivity].
  cbn [bind np.interp]. destruct x as [x|]; [|reflexivity].
  destruct (length x1 =? 0)%nat; [reflexivity|].
  destruct (Nat.eqb_spec (length row) (length x1)); [contradiction | reflexivity].
Qed.

Lemma y_shape_mismatch_witness :
  (exists g,
      __init__ [0%float; 10%float] (np.Arr1 [0%float; 1%float; 2%float])
               (NdArray [[0%float; 0%float; 0%float]; [10%float; 20%float]])
      = Ok g
      /\ returns (y g 5%float None true) = false)
  /\ (exists g,
        __init__ [0%float; 10%float] (np.Arr1 [0%float; 1%float; 2%float])
                 (NdArray [[0%float; 0%float; 0%float]])
        = Ok g
        /\ returns (y g (-1)%float None true) = false).
Proof.
  split.
  - apply (y_shape_mismatch
             [0%float; 10%float] [0%float; 1%float; 2%float]
             [[0%float; 0%float; 0%float]; [10%float; 20%float]]
             5%float None true).
    cbn. discriminate.
  - apply (y_shape_mismatch
             [0%float; 10%float] [0%float; 1%float; 2%float]
             [[0%float; 0%float; 0%float]]
             (-1)%float None true).
    exact I.
Defined.
